(** * Aiogram support bot: moderation registry, duration parser, expiry sweeper

    A shallow embedding of [bot/handlers.py].  Python [str] values are lists of
    Unicode code points, [int] values are [Z], [datetime] values are [Z]
    microseconds, the two module-level dicts are [gmap]s, and the handlers are
    computations in a small state-and-exception monad that records every
    external call (clock reads, transport calls, sleeps) in a trace.  A
    handler runs to its end without another one running in between at its
    [await] points; logging is left out. *)

From Stdlib Require Import ZArith Ascii String.
From Stdlib Require DecimalPos DecimalZ.
From stdpp Require Import gmap list fin_maps.

Local Open Scope Z_scope.

(** ** Python strings *)

(** A Python [str] is a sequence of code points. *)
Abbreviation str := (list Z).

Module Utf8.

(** Decoder for the string literals of the source file, which is UTF-8. *)
Definition byte_val (a : ascii) : Z := Z.of_N (N_of_ascii a).

Fixpoint decode (acc : Z) (pending : nat) (bs : list Z) : str :=
  match bs with
  | [] => []
  | b :: bs' =>
      match pending with
      | S O => (acc * 64 + b mod 64) :: decode 0 O bs'
      | S k => decode (acc * 64 + b mod 64) k bs'
      | O =>
          if b <? 128 then b :: decode 0 O bs'
          else if b <? 224 then decode (b mod 32) 1%nat bs'
          else if b <? 240 then decode (b mod 16) 2%nat bs'
          else decode (b mod 8) 3%nat bs'
      end
  end.

End Utf8.

(** [py "..."] is the Python string written as that literal. *)
Definition py (s : string) : str :=
  Utf8.decode 0 O (map Utf8.byte_val (list_ascii_of_string s)).

(** Literals stay folded under [simpl]; [vm_compute] evaluates them. *)
#[global] Opaque py.

(** [str(n)] for an [int]. *)
Fixpoint uint_digits (d : Decimal.uint) : str :=
  match d with
  | Decimal.Nil => []
  | Decimal.D0 d => 48 :: uint_digits d
  | Decimal.D1 d => 49 :: uint_digits d
  | Decimal.D2 d => 50 :: uint_digits d
  | Decimal.D3 d => 51 :: uint_digits d
  | Decimal.D4 d => 52 :: uint_digits d
  | Decimal.D5 d => 53 :: uint_digits d
  | Decimal.D6 d => 54 :: uint_digits d
  | Decimal.D7 d => 55 :: uint_digits d
  | Decimal.D8 d => 56 :: uint_digits d
  | Decimal.D9 d => 57 :: uint_digits d
  end.

Definition str_of_int (n : Z) : str :=
  match Z.to_int n with
  | Decimal.Pos d => uint_digits d
  | Decimal.Neg d => 45 :: uint_digits d
  end.

(** [sep.join(parts)] *)
Fixpoint join (sep : str) (parts : list str) : str :=
  match parts with
  | [] => []
  | [p] => p
  | p :: ps => p ++ sep ++ join sep ps
  end.

(** [s.startswith(p)], returning the rest of [s] after [p]. *)
Fixpoint strip_prefix (p s : str) : option str :=
  match p, s with
  | [], _ => Some s
  | a :: p', b :: s' => if a =? b then strip_prefix p' s' else None
  | _ :: _, [] => None
  end.

(** ** The tables of the Python runtime

    Which code points are decimal digits ([\d] of [re], the digits [int()]
    accepts) and which are white space depends on the Unicode tables of the
    interpreter; so does [str.lower] and the calendar arithmetic behind
    [strftime].  They are not part of the source and are taken as
    parameters.  [int_isspace] is the white space [int()] strips, which is
    not the same set as the one of [str.strip] and [str.split]. *)
Record runtime := {
  decimal : Z -> option Z;
  isspace : Z -> bool;
  int_isspace : Z -> bool;
  lower : str -> str;
  strftime : Z -> str
}.

(** The ASCII part of those tables, enough to run the model on ASCII and
    Cyrillic input. *)
Definition ascii_decimal (c : Z) : option Z :=
  if (48 <=? c) && (c <=? 57) then Some (c - 48) else None.

Definition ascii_isspace (c : Z) : bool :=
  ((9 <=? c) && (c <=? 13)) || ((28 <=? c) && (c <=? 32)).

Definition ascii_int_isspace (c : Z) : bool :=
  ((9 <=? c) && (c <=? 13)) || (c =? 32).

Definition ascii_lower (s : str) : str :=
  map (fun c => if (65 <=? c) && (c <=? 90) then c + 32 else c) s.

Definition ascii_runtime : runtime := {|
  decimal := ascii_decimal;
  isspace := ascii_isspace;
  int_isspace := ascii_int_isspace;
  lower := ascii_lower;
  strftime := fun t => str_of_int t
|}.

(** ** Exceptions *)

Inductive exn :=
| ValueError (msg : str)
| KeyError (key : Z)
| IndexError
| AttributeError
| TypeError
| TelegramAPIError (message : str)
| RuntimeError (msg : str).

(** ** Pure helpers of the source *)

Section Pure.

Variable rt : runtime.

Definition is_digit (c : Z) : bool :=
  match decimal rt c with Some _ => true | None => false end.

(** [str.strip()] and the stripping done by [int()]. *)
Fixpoint lstrip (sp : Z -> bool) (s : str) : str :=
  match s with
  | c :: s' => if sp c then lstrip sp s' else s
  | [] => []
  end.

Definition strip_with (sp : Z -> bool) (s : str) : str :=
  lstrip sp (rev (lstrip sp (rev s))).

Definition strip (s : str) : str := strip_with (fun c => isspace rt c) s.

(** [s.split(maxsplit=1)]: the first word, then the rest from its first
    non-space character to the end of the string. *)
Fixpoint span_word (s : str) : str * str :=
  match s with
  | [] => ([], [])
  | c :: s' =>
      if isspace rt c then ([], s)
      else let '(w, r) := span_word s' in (c :: w, r)
  end.

Definition split1 (s : str) : list str :=
  match lstrip (fun c => isspace rt c) s with
  | [] => []
  | s1 =>
      let '(w, r) := span_word s1 in
      match lstrip (fun c => isspace rt c) r with
      | [] => [w]
      | r' => [w; r']
      end
  end.

(** [int(s)] for a [str]: optional white space, an optional sign, then
    digits, where single underscores may separate digits.  [None] is
    [ValueError].  The limit that newer interpreters put on the number of
    digits (4300 by default, more than a Telegram message holds) is not
    modelled. *)
Fixpoint int_body (acc : Z) (after_digit : bool) (s : str) : option Z :=
  match s with
  | [] => if after_digit then Some acc else None
  | c :: s' =>
      match decimal rt c with
      | Some d => int_body (acc * 10 + d) true s'
      | None =>
          if (c =? 95) && after_digit then int_body acc false s' else None
      end
  end.

Definition py_int (s : str) : option Z :=
  match strip_with (fun c => int_isspace rt c) s with
  | [] => None
  | c :: s' =>
      if c =? 45 then Z.opp <$> int_body 0 false s'
      else if c =? 43 then int_body 0 false s'
      else int_body 0 false (c :: s')
  end.

(** [re.search(r'(\d+)X', s).group(1)] for a one-character marker [X]:
    the leftmost start, and from it the longest run of digits that is
    followed by the marker. *)
Fixpoint match_digits_then (marker : Z) (s : str) : option str :=
  match s with
  | [] => None
  | c :: s' =>
      if is_digit c then
        match match_digits_then marker s' with
        | Some ds => Some (c :: ds)
        | None =>
            match s' with
            | c' :: _ => if c' =? marker then Some [c] else None
            | [] => None
            end
        end
      else None
  end.

Fixpoint search_digits_then (marker : Z) (s : str) : option str :=
  match match_digits_then marker s with
  | Some ds => Some ds
  | None =>
      match s with
      | [] => None
      | _ :: s' => search_digits_then marker s'
      end
  end.

(** [re.search(r'tg://user\?id=(\d+)', s).group(1)] *)
Fixpoint take_digits (s : str) : str :=
  match s with
  | c :: s' => if is_digit c then c :: take_digits s' else []
  | [] => []
  end.

Definition match_profile_link (s : str) : option str :=
  match strip_prefix (py "tg://user?id=") s with
  | Some r => match take_digits r with [] => None | ds => Some ds end
  | None => None
  end.

Fixpoint search_profile_link (s : str) : option str :=
  match match_profile_link s with
  | Some ds => Some ds
  | None =>
      match s with
      | [] => None
      | _ :: s' => search_profile_link s'
      end
  end.

Definition HOUR : Z := 1095.   (* ч *)
Definition MINUTE : Z := 1084. (* м *)



(** [parse_duration]; [inl] is an exception leaving the function (the
    two [int(...)] calls on a matched group are outside the [try]). *)
Definition parse_duration (duration_str : str) : exn + (Z * str) :=
  match duration_str with
  | [] => inr (60, py "1 час")
  | _ =>
      (* hours *)
      let after_hours : exn + (Z * list str) :=
        match search_digits_then HOUR duration_str with
        | Some g =>
            match py_int g with
            | Some hours => inr (0 + hours * 60, [str_of_int hours ++ [HOUR]])
            | None => inl (ValueError g)
            end
        | None => inr (0, [])
        end in
      (* minutes *)
      let after_minutes : exn + (Z * list str) :=
        match after_hours with
        | inl x => inl x
        | inr (total_minutes, time_parts) =>
            match search_digits_then MINUTE duration_str with
            | Some g =>
                match py_int g with
                | Some minutes =>
                    inr (total_minutes + minutes,
                         time_parts ++ [str_of_int minutes ++ [MINUTE]])
                | None => inl (ValueError g)
                end
            | None => inr (total_minutes, time_parts)
            end
        end in
      match after_minutes with
      | inl x => inl x
      | inr (total_minutes, time_parts) =>
          (* nothing found: the whole value as hours *)
          let '(total_minutes, time_parts) :=
            if total_minutes =? 0 then
              match py_int duration_str with
              | Some hours =>
                  (hours * 60, time_parts ++ [str_of_int hours ++ [HOUR]])
              | None => (60, time_parts ++ [py "1ч"])
              end
            else (total_minutes, time_parts) in
          inr (Z.min total_minutes 1440, join [32] time_parts)
      end
  end.

(** The duration the mute command uses: [parse_duration], then the guard
    the command applies to its result. *)
Definition mute_duration (duration_str : str) : exn + (Z * str) :=
  match parse_duration duration_str with
  | inl x => inl x
  | inr (total_minutes, time_display) =>
      if total_minutes <=? 0 then inr (60, py "1ч")
      else inr (total_minutes, time_display)
  end.

(** Python truth of an optional string: [None] and [""] are false. *)
Definition truthy (o : option str) : option str :=
  match o with
  | Some [] => None
  | _ => o
  end.

(** The remaining time shown to a muted user:
    [divmod(int(remaining.total_seconds()), 3600)], then the minutes. *)
Definition time_str (unmute_time now : Z) : str :=
  let seconds := Z.quot (unmute_time - now) 1000000 in
  let hours := seconds / 3600 in
  let remainder := seconds mod 3600 in
  let minutes := remainder / 60 in
  if 0 <? hours
  then str_of_int hours ++ py "ч " ++ str_of_int minutes ++ py "мин"
  else str_of_int minutes ++ py "мин".

End Pure.

(** The tables are consistent when a decimal digit is neither white space
    for [int()] nor a sign. *)
Definition runtime_wf (rt : runtime) : Prop :=
  forall c, is_digit rt c = true -> int_isspace rt c = false /\ c <> 45 /\ c <> 43.

(** ** Messages, the registries and the outside world *)

(** What [bot.get_chat] returns, as far as the handlers read it. *)
Record Chat := {
  chat_id : Z;
  first_name : option str;
  last_name : option str;
  username : option str
}.

(** An incoming message, as far as the handlers read it. *)
#[local] Unset Elimination Schemes.
Inductive Message := mkMessage {
  from_user_id : Z;
  from_user_full_name : str;
  text : option str;
  caption : option str;
  reply_to_message : option Message
}.
#[local] Set Elimination Schemes.

(** The chat a transport call addresses: [chat_id=user_id] or
    [chat_id=GROUP_ID]. *)
Inductive chat_ref :=
| ToUser (user_id : Z)
| ToGroup.

(** The external calls a handler makes, in the order it makes them. *)
Inductive event :=
| EvNow (t : Z)                                    (* datetime.now() *)
| EvSendMessage (chat : chat_ref) (body : str)     (* bot.send_message *)
| EvReply (body : str)                             (* message.reply, message.answer *)
| EvCopyTo (chat : chat_ref) (body : str)          (* message.copy_to *)
| EvGetChat (user_id : Z)                          (* bot.get_chat *)
| EvSleep (seconds : Z).                           (* asyncio.sleep *)

(** The module-level dicts [muted_users] and [banned_users], and the calls
    made so far.  Times are microseconds. *)
Record world := mkWorld {
  muted_users : gmap Z (Z * str);
  banned_users : gmap Z str;
  trace : list event
}.

(** What the outside world answers to the call made when [k] calls have
    been made before it: the clock reading, whether a transport call
    raises, and the profile [bot.get_chat] returns. *)
Record env := {
  clock : nat -> Z;
  transport : nat -> option exn;
  profile : nat -> Chat
}.

(** The calls a run has added to the trace of the world it started in. *)
Definition new_events (w w' : world) : list event :=
  drop (length (trace w)) (trace w').

(** A message sent to a user by the bot itself. *)
Definition is_notification (ev : event) : bool :=
  match ev with
  | EvSendMessage (ToUser _) _ => true
  | _ => false
  end.

(** A message passed on to the staff group. *)
Definition is_forward (ev : event) : bool :=
  match ev with
  | EvSendMessage ToGroup _ | EvCopyTo ToGroup _ => true
  | _ => false
  end.

(** No user is in both registries. *)
Definition registries_disjoint (w : world) : Prop :=
  forall user_id,
    is_Some (muted_users w !! user_id) -> banned_users w !! user_id = None.


(** ** The monad of the handlers *)

Definition M (A : Type) : Type := world -> (exn + A) * world.

#[global] Instance M_ret : MRet M := fun A a w => (inr a, w).

#[global] Instance M_bind : MBind M := fun A B k m w =>
  match m w with
  | (inr a, w') => k a w'
  | (inl x, w') => (inl x, w')
  end.

#[global] Instance M_fmap : FMap M := fun A B f m w =>
  match m w with
  | (inr a, w') => (inr (f a), w')
  | (inl x, w') => (inl x, w')
  end.

Definition raise {A} (x : exn) : M A := fun w => (inl x, w).

Definition lift {A} (r : exn + A) : M A := fun w => (r, w).

(** [try: m except ...: h], where [h] says which exceptions it catches. *)
Definition try_except {A} (m : M A) (h : exn -> option (M A)) : M A := fun w =>
  match m w with
  | (inr a, w') => (inr a, w')
  | (inl x, w') =>
      match h x with
      | Some k => k w'
      | None => (inl x, w')
      end
  end.

Definition except_ValueError {A} (k : str -> M A) (x : exn) : option (M A) :=
  match x with ValueError msg => Some (k msg) | _ => None end.

Definition except_TelegramAPIError {A} (k : str -> M A) (x : exn) : option (M A) :=
  match x with TelegramAPIError msg => Some (k msg) | _ => None end.

Definition except_Exception {A} (k : exn -> M A) (x : exn) : option (M A) :=
  Some (k x).

Definition log (w : world) (ev : event) : world :=
  mkWorld (muted_users w) (banned_users w) (trace w ++ [ev]).

Definition set_muted (m : gmap Z (Z * str)) : M unit := fun w =>
  (inr tt, mkWorld m (banned_users w) (trace w)).

Definition set_banned (b : gmap Z str) : M unit := fun w =>
  (inr tt, mkWorld (muted_users w) b (trace w)).

Definition get_muted : M (gmap Z (Z * str)) := fun w => (inr (muted_users w), w).

Definition get_banned : M (gmap Z str) := fun w => (inr (banned_users w), w).

(** [muted_users[user_id]] *)
Definition muted_item (user_id : Z) : M (Z * str) :=
  m ← get_muted;
  match m !! user_id with
  | Some r => mret r
  | None => raise (KeyError user_id)
  end.

(** [del muted_users[user_id]] *)
Definition del_muted (user_id : Z) : M unit :=
  m ← get_muted;
  match m !! user_id with
  | Some _ => set_muted (delete user_id m)
  | None => raise (KeyError user_id)
  end.

(** [banned_users[user_id]] *)
Definition banned_item (user_id : Z) : M str :=
  b ← get_banned;
  match b !! user_id with
  | Some r => mret r
  | None => raise (KeyError user_id)
  end.

(** [del banned_users[user_id]] *)
Definition del_banned (user_id : Z) : M unit :=
  b ← get_banned;
  match b !! user_id with
  | Some _ => set_banned (delete user_id b)
  | None => raise (KeyError user_id)
  end.

Section Handlers.

Variable rt : runtime.
Variable e : env.

(** [datetime.now()] *)
Definition now : M Z := fun w =>
  let t := clock e (length (trace w)) in (inr t, log w (EvNow t)).

(** A transport call: it is recorded, then it returns or raises as the
    outside world decides. *)
Definition call (ev : event) : M unit := fun w =>
  match transport e (length (trace w)) with
  | None => (inr tt, log w ev)
  | Some x => (inl x, log w ev)
  end.

Definition send_message (chat : chat_ref) (body : str) : M unit :=
  call (EvSendMessage chat body).

Definition reply (body : str) : M unit := call (EvReply body).

Definition copy_to (chat : chat_ref) (body : str) : M unit :=
  call (EvCopyTo chat body).

Definition get_chat (user_id : Z) : M Chat := fun w =>
  let k := length (trace w) in
  match transport e k with
  | None => (inr (profile e k), log w (EvGetChat user_id))
  | Some x => (inl x, log w (EvGetChat user_id))
  end.

(** The result of a handler whose last call is call number [k]. *)
Definition reply_outcome (k : nat) : exn + unit :=
  match transport e k with
  | None => inr tt
  | Some x => inl x
  end.

(** [asyncio.sleep] *)
Definition sleep (seconds : Z) : M unit := fun w =>
  (inr tt, log w (EvSleep seconds)).

Definition nl : str := [10].

(** [extract_user_id] *)
Definition extract_user_id (message : Message) : exn + Z :=
  let text_to_search :=
    match truthy (text message) with
    | Some t => t
    | None =>
        match truthy (caption message) with
        | Some c => c
        | None => []
        end
    end in
  match search_profile_link rt text_to_search with
  | Some g =>
      match py_int rt g with
      | Some n => inr n
      | None => inl (ValueError g)
      end
  | None => inl (ValueError (py "Не могу извлечь Id"))
  end.

(** [extract_user_id(message.reply_to_message)] *)
Definition extract_replied_user_id (message : Message) : M Z :=
  match reply_to_message message with
  | Some replied => lift (extract_user_id replied)
  | None => raise AttributeError
  end.

(** [get_name] *)
Definition get_name (chat : Chat) : str :=
  match truthy (first_name chat) with
  | None => []
  | Some first =>
      match truthy (last_name chat) with
      | None => first
      | Some last => first ++ py " " ++ last
      end
  end.

(** [is_user_muted] *)
Definition is_user_muted (user_id : Z) : M bool :=
  m ← get_muted;
  match m !! user_id with
  | Some _ =>
      '(unmute_time, _) ← muted_item user_id;
      t ← now;
      if t <? unmute_time then mret true
      else del_muted user_id ;; mret false
  | None => mret false
  end.

(** [is_user_banned] *)
Definition is_user_banned (user_id : Z) : M bool :=
  b ← get_banned;
  mret (bool_decide (is_Some (b !! user_id))).

(** The answer to a banned sender. *)
Definition banned_text (reason : str) : str :=
  py "❌ Вы были заблокированы администратором." ++ nl ++
  py "Причина: " ++ reason ++ nl ++
  py "Ваши сообщения не будут обработаны.".

(** The answer to a muted sender. *)
Definition muted_text (reason remaining : str) : str :=
  py "❌ Вы были замучены администратором." ++ nl ++
  py "Причина: " ++ reason ++ nl ++
  py "Оставшееся время: " ++ remaining ++ nl ++
  py "Ваши сообщения не будут обработаны до размута.".

(** The two checks that open [send_message_to_group] and
    [supported_media]; [true] when the handler has answered and returns. *)
Definition restricted (message : Message) : M bool :=
  banned ← is_user_banned (from_user_id message);
  if banned : bool then
    reason ← banned_item (from_user_id message);
    reply (banned_text reason) ;;
    mret true
  else
    muted ← is_user_muted (from_user_id message);
    if muted : bool then
      '(unmute_time, reason) ← muted_item (from_user_id message);
      t ← now;
      reply (muted_text reason (time_str unmute_time t)) ;;
      mret true
    else mret false.

(** What the staff group receives for a text and for a media message. *)
Definition group_text (message : Message) (body : str) : str :=
  py "Имя: " ++ from_user_full_name message ++ nl ++
  py "Профиль: tg://user?id=" ++ str_of_int (from_user_id message) ++
  nl ++ nl ++ body.

Definition group_caption (message : Message) : str :=
  default [] (truthy (caption message)) ++ nl ++ nl ++
  py "Имя: " ++ from_user_full_name message ++ nl ++
  py "tg://user?id=" ++ str_of_int (from_user_id message).

Definition too_long_text : str :=
  py "Сообщение слишком длинное (максимум 4000 символов)".

Definition too_long_caption : str :=
  py "Слишком длинное описание. Описание не может быть больше 1000 символов".

(** [send_message_to_group] *)
Definition send_message_to_group (message : Message) : M unit :=
  stop ← restricted message;
  if stop : bool then mret tt
  else
    match text message with
    | None => raise TypeError
    | Some body =>
        if 4000 <? Z.of_nat (length body) then
          reply too_long_text
        else
          send_message ToGroup (group_text message body)
    end.

(** [supported_media] *)
Definition supported_media (message : Message) : M unit :=
  stop ← restricted message;
  if stop : bool then mret tt
  else
    let too_long :=
      match truthy (caption message) with
      | Some c => 1000 <? Z.of_nat (length c)
      | None => false
      end in
    if too_long then
      reply too_long_caption
    else
      try_except
        (copy_to ToGroup (group_caption message))
        (except_TelegramAPIError (fun msg =>
           reply (py "❌ Ошибка при отправке медиа: " ++ msg))).

(** The answer of [get_user_info]. *)
Definition info_text (user : Chat) (username status_info : str) : str :=
  py "Имя: " ++ get_name user ++ nl ++
  py "Id: " ++ str_of_int (chat_id user) ++ nl ++
  py "username: " ++ username ++ nl ++
  py "Статус: " ++ status_info.

Definition shown_username (user : Chat) : str :=
  match truthy (username user) with
  | Some u => py "@" ++ u
  | None => py "отсутствует"
  end.

(** [get_user_info] *)
Definition get_user_info (message : Message) : M unit :=
  found ← try_except (Some <$> extract_replied_user_id message)
             (except_ValueError (fun err => reply err ;; mret None));
  match found with
  | None => mret tt
  | Some user_id =>
      looked_up ← try_except (Some <$> get_chat user_id)
        (except_TelegramAPIError (fun msg =>
           reply (py "Невозможно найти пользователя с таким Id. Текст ошибки:" ++
                  nl ++ msg) ;;
           mret None));
      match looked_up with
      | None => mret tt
      | Some user =>
          let username := shown_username user in
          b ← get_banned;
          m ← get_muted;
          status_info ←
            match b !! user_id with
            | Some _ =>
                reason ← banned_item user_id;
                mret (py "Забанен: " ++ reason)
            | None =>
                match m !! user_id with
                | Some _ =>
                    '(unmute_time, reason) ← muted_item user_id;
                    t ← now;
                    if t <? unmute_time then
                      t' ← now;
                      mret (py "Замучен (до " ++ strftime rt unmute_time ++
                            py ", осталось " ++ time_str unmute_time t' ++ py ")")
                    else
                      del_muted user_id ;; mret (py "Нет")
                | None => mret (py "Нет")
                end
            end;
          reply (info_text user username status_info)
      end
  end.

(** The notifications sent to the target of a command. *)
Definition ban_notice (reason : str) : str :=
  py "⚠️ Вы были заблокированы администратором." ++ nl ++
  py "Причина: " ++ reason.

Definition mute_notice (time_display reason end_time_str : str) : str :=
  py "🔇 Вы были замучены администратором на " ++ time_display ++ py "." ++ nl ++
  py "Причина: " ++ reason ++ nl ++
  py "Ваши сообщения больше не будут обработаны до " ++ end_time_str ++ py ".".

Definition unmute_notice : str :=
  py "✅ С вас сняты ограничения. Вы можете снова писать в бота.".

Definition unban_notice : str :=
  py "✅ Вы были разблокированы администратором.".

Definition expired_notice : str :=
  py "✅ С вас автоматически сняты ограничения. Вы можете снова писать в бота.".

(** The reason of a ban: the rest of the command line, or the default. *)
Definition ban_reason (command_parts : list str) : str :=
  match command_parts with
  | _ :: arg :: _ => strip rt arg
  | _ => py "Заблокирован администратором"
  end.

(** The duration word and the reason of a mute. *)
Definition mute_args (command_parts : list str) : exn + (str * str) :=
  match command_parts with
  | _ :: arg :: _ =>
      match split1 rt (strip rt arg) with
      | [] => inl IndexError
      | [d] => inr (d, py "Нарушение правил")
      | d :: r :: _ => inr (d, r)
      end
  | _ => inr (py "1ч", py "Нарушение правил")
  end.

(** The branches of [handle_admin_commands], each a [try] block of the
    source with its [except TelegramAPIError]. *)
Definition command_ban (user_id : Z) (command_parts : list str) : M unit :=
  try_except
    (let reason := ban_reason command_parts in
     b ← get_banned;
     set_banned (<[user_id := reason]> b) ;;
     m ← get_muted;
     match m !! user_id with
     | Some _ => del_muted user_id
     | None => mret tt
     end ;;
     send_message (ToUser user_id) (ban_notice reason) ;;
     reply (py "✅ Пользователь заблокирован."))
    (except_TelegramAPIError (fun msg =>
       reply (py "❌ Ошибка при блокировке: " ++ msg))).

Definition command_mute (user_id : Z) (command_parts : list str) : M unit :=
  try_except
    (b ← get_banned;
     match b !! user_id with
     | Some _ => reply (py "❌ Пользователь забанен. Сначала разбаньте его.")
     | None =>
         '(duration_str, reason) ← lift (mute_args command_parts);
         '(total_minutes, time_display) ← lift (mute_duration rt duration_str);
         t ← now;
         let unmute_time := t + total_minutes * 60000000 in
         m ← get_muted;
         set_muted (<[user_id := (unmute_time, reason)]> m) ;;
         let end_time_str := strftime rt unmute_time in
         send_message (ToUser user_id)
           (mute_notice time_display reason end_time_str) ;;
         reply (py "✅ Пользователь замучен на " ++ time_display ++ py ".")
     end)
    (except_TelegramAPIError (fun msg =>
       reply (py "❌ Ошибка при муте: " ++ msg))).

Definition command_unmute (user_id : Z) : M unit :=
  try_except
    (m ← get_muted;
     match m !! user_id with
     | Some _ =>
         del_muted user_id ;;
         send_message (ToUser user_id) unmute_notice ;;
         reply (py "✅ С пользователя сняты ограничения.")
     | None => reply (py "❌ Пользователь не замучен.")
     end)
    (except_TelegramAPIError (fun msg =>
       reply (py "❌ Ошибка при размуте: " ++ msg))).

Definition command_unban (user_id : Z) : M unit :=
  try_except
    (b ← get_banned;
     match b !! user_id with
     | Some _ =>
         del_banned user_id ;;
         send_message (ToUser user_id) unban_notice ;;
         reply (py "✅ Пользователь разблокирован.")
     | None => reply (py "❌ Пользователь не забанен.")
     end)
    (except_TelegramAPIError (fun msg =>
       reply (py "❌ Ошибка при разблокировке: " ++ msg))).

Definition help_text : str :=
  py "❓ Неизвестная команда. Доступные команды:" ++ nl ++
  py "/ban [причина] - заблокировать пользователя" ++ nl ++
  py "/mute [время] [причина] - замутить пользователя (пример: 1ч, 30м, 1ч30м)" ++ nl ++
  py "/unmute - размутить пользователя" ++ nl ++
  py "/unban - разблокировать пользователя".

(** [handle_admin_commands] *)
Definition handle_admin_commands (message : Message) : M unit :=
  found ← try_except (Some <$> extract_replied_user_id message)
             (except_ValueError (fun err =>
                reply (py "Ошибка: " ++ err) ;; mret None));
  match found with
  | None => mret tt
  | Some user_id =>
      match text message with
      | None => raise AttributeError
      | Some body =>
          let command_parts := split1 rt (strip rt body) in
          match command_parts with
          | [] => raise IndexError
          | word :: _ =>
              let command := lower rt word in
              if decide (command = py "/ban") then
                command_ban user_id command_parts
              else if decide (command = py "/mute") then
                command_mute user_id command_parts
              else if decide (command = py "/unmute") then
                command_unmute user_id
              else if decide (command = py "/unban") then
                command_unban user_id
              else reply help_text
          end
      end
  end.

Definition notify_expired (user_id : Z) : event :=
  EvSendMessage (ToUser user_id) expired_notice.

(** [check_mute_expirations]: the users collected by the scan are
    unmuted one after the other. *)
Fixpoint unmute_expired (expired_users : list Z) : M unit :=
  match expired_users with
  | [] => mret tt
  | user_id :: rest =>
      del_muted user_id ;;
      try_except
        (send_message (ToUser user_id) expired_notice)
        (except_Exception (fun _ => mret tt)) ;;
      unmute_expired rest
  end.

Definition is_expired (current_time : Z) (item : Z * (Z * str)) : bool :=
  let '(_, (unmute_time, _)) := item in unmute_time <=? current_time.

(** The first loop of the sweep: the users whose time is up, in the
    order the dict yields them. *)
Definition expired_at (current_time : Z) (m : gmap Z (Z * str)) : list Z :=
  (List.filter (is_expired current_time) (map_to_list m)).*1.

(** One pass of the body of [while True]. *)
Definition sweep_cycle : M unit :=
  try_except
    (current_time ← now;
     m ← get_muted;
     let expired_users := expired_at current_time m in
     unmute_expired expired_users ;;
     sleep 60)
    (except_Exception (fun _ => sleep 60)).

(** [check_mute_expirations], cut after [cycles] passes of its loop. *)
Fixpoint check_mute_expirations (cycles : nat) : M unit :=
  match cycles with
  | O => mret tt
  | S n => sweep_cycle ;; check_mute_expirations n
  end.

End Handlers.

(** ** The remaining handlers *)

Section MoreHandlers.

Variable rt : runtime.
Variable e : env.

Definition greeting : str :=
  py "Привет! Мы - команда поддержки. Если у вас есть вопрос, " ++
  py "напишите нам, мы с радостью на него ответим.".

(** [command_start]: the same two checks as the relay handlers (its
    answers go out with [message.answer]), then the greeting. *)
Definition command_start (message : Message) : M unit :=
  stop ← restricted e message;
  if stop : bool then mret tt
  else reply e greeting.

(** The two [except] clauses of [send_message_answer]. *)
Definition except_answer_errors (x : exn) : option (M unit) :=
  match x with
  | ValueError err =>
      Some (reply e (py "Не могу извлечь Id. Возможно он некорректный. Текст ошибки:" ++
                     nl ++ err))
  | TelegramAPIError msg =>
      Some (reply e (py "Ошибка при отправке сообщения пользователю: " ++ msg))
  | _ => None
  end.

(** [send_message_answer].  The copy is made without a caption argument,
    written [EvCopyTo chat []]; the other [copy_to] of the program always
    passes a caption that is not empty. *)
Definition send_message_answer (message : Message) : M unit :=
  try_except
    (chat_id ← extract_replied_user_id rt message;
     copy_to e (ToUser chat_id) [])
    except_answer_errors.

End MoreHandlers.

(** Whether [p] occurs in [s] as a substring. *)
Fixpoint occurs (p s : str) : bool :=
  match strip_prefix p s with
  | Some _ => true
  | None =>
      match s with
      | [] => false
      | _ :: s' => occurs p s'
      end
  end.

(** The tables agree with ASCII where the program's own output is
    concerned: the digits [str(int)] writes are decimal digits with their
    values and are not white space for [int()], and a line feed is not a
    digit. *)
Definition runtime_reads_ascii (rt : runtime) : Prop :=
  (forall c, 48 <= c <= 57 ->
             decimal rt c = Some (c - 48) /\ int_isspace rt c = false) /\
  decimal rt 10 = None.

(** A message of the staff group whose text is the text that
    [send_message_to_group] sends there (what the platform makes of the
    HTML in it is outside the source). *)
Definition forwarded_text (message : Message) (body : str) : Message :=
  mkMessage 0 (py "Bot") (Some (group_text message body)) None None.

(** A message of the staff group whose caption is the caption that
    [supported_media] gives to its copy. *)
Definition forwarded_media (message : Message) : Message :=
  mkMessage 0 (py "Bot") None (Some (group_caption message)) None.

(** From [w] to [w'] nobody was banned, unbanned or muted: at most, mute
    records were dropped. *)
Definition only_drops_mutes (w w' : world) : Prop :=
  banned_users w' = banned_users w /\ muted_users w' ⊆ muted_users w.

(** The three handlers of a user's private messages. *)
Definition private_handlers (e : env) : list (Message -> M unit) :=
  [send_message_to_group e; supported_media e; command_start e].

Definition is_sleep (ev : event) : bool :=
  match ev with
  | EvSleep _ => true
  | _ => false
  end.

(** Whether a text starts with something other than a digit, or is empty. *)
Definition stops_digits (rt : runtime) (tail : str) : Prop :=
  match tail with
  | c :: _ => is_digit rt c = false
  | [] => True
  end.

(** ** Sample surroundings, to run the handlers on *)

Definition nobody : Chat :=
  {| chat_id := 0; first_name := None; last_name := None; username := None |}.

(** The clock stands at [t] and every transport call succeeds. *)
Definition delivering (t : Z) : env :=
  {| clock := fun _ => t; transport := fun _ => None; profile := fun _ => nobody |}.

(** The clock stands at [t] and call number [k] is refused by the
    platform. *)
Definition refusing_at (k : nat) (t : Z) (msg : str) : env :=
  {| clock := fun _ => t;
     transport := fun i => if Nat.eqb i k then Some (TelegramAPIError msg) else None;
     profile := fun _ => nobody |}.

(** User 7 was muted until time 100, user 8 until time 300, user 9 is
    banned; nothing has been called yet. *)
Definition sample_world : world :=
  mkWorld (<[7 := (100, py "spam")]> (<[8 := (300, py "flood")]> ∅))
          (<[9 := py "abuse"]> ∅) [].

(** A message of user [from] with the given text and caption. *)
Definition user_message (from : Z) (t c : option str) : Message :=
  mkMessage from (py "User") t c None.

(** A message of the staff group that answers a forwarded message of
    user 7. *)
Definition staff_message (t : str) : Message :=
  mkMessage 1 (py "Admin") (Some t) None
    (Some (mkMessage 0 (py "Bot")
             (Some (py "Профиль: tg://user?id=7")) None None)).

(** * Properties *)

(** ** The duration parser *)

Section ParserFacts.

Variable rt : runtime.

Lemma match_digits_then_digits marker s ds :
  match_digits_then rt marker s = Some ds ->
  ds <> [] /\ Forall (fun c => is_digit rt c = true) ds.
Proof.
  revert ds. induction s as [|c s IH]; intros ds; simpl; [discriminate|].
  destruct (is_digit rt c) eqn:Hc; [|discriminate].
  destruct (match_digits_then rt marker s) as [ds'|].
  - intros [= <-]. destruct (IH ds' eq_refl) as [_ Hall].
    split; [discriminate|]. by constructor.
  - destruct s as [|c' s']; [discriminate|].
    destruct (c' =? marker); [|discriminate].
    intros [= <-]. split; [discriminate|]. by repeat constructor.
Qed.

Lemma search_digits_then_digits marker s ds :
  search_digits_then rt marker s = Some ds ->
  ds <> [] /\ Forall (fun c => is_digit rt c = true) ds.
Proof.
  induction s as [|c s IH].
  - simpl. discriminate.
  - change (search_digits_then rt marker (c :: s)) with
      (match match_digits_then rt marker (c :: s) with
       | Some g => Some g
       | None => search_digits_then rt marker s
       end).
    destruct (match_digits_then rt marker (c :: s)) eqn:Hm.
    + intros [= <-]. by eapply match_digits_then_digits.
    + exact IH.
Qed.

Lemma lstrip_id sp (s : str) :
  Forall (fun c => sp c = false) s -> lstrip sp s = s.
Proof. destruct 1 as [|c s Hc _]; simpl; [done|]. by rewrite Hc. Qed.

Lemma strip_with_id sp (s : str) :
  Forall (fun c => sp c = false) s -> strip_with sp s = s.
Proof.
  intros Hs. unfold strip_with.
  rewrite (lstrip_id sp (rev s)) by by apply Forall_rev.
  rewrite rev_involutive. by apply lstrip_id.
Qed.

Lemma int_body_digits acc after ds :
  Forall (fun c => is_digit rt c = true) ds ->
  ds <> [] \/ after = true ->
  is_Some (int_body rt acc after ds).
Proof.
  intros Hds. revert acc after.
  induction Hds as [|c ds Hc _ IH]; intros acc after Hne; simpl.
  - destruct Hne as [ | -> ]; [done|]. by eexists.
  - unfold is_digit in Hc. destruct (decimal rt c); [|discriminate].
    apply IH. by right.
Qed.

(** [int()] never fails on a group matched by [\d+]. *)
Lemma py_int_digits ds :
  runtime_wf rt ->
  ds <> [] -> Forall (fun c => is_digit rt c = true) ds ->
  is_Some (py_int rt ds).
Proof.
  intros Hwf Hne Hds. unfold py_int.
  rewrite strip_with_id.
  - destruct Hds as [|c ds Hc Hds]; [done|].
    destruct (Hwf c Hc) as (_ & Hm & Hp).
    apply Z.eqb_neq in Hm, Hp. rewrite Hm, Hp.
    apply int_body_digits; [by constructor | by left].
  - eapply Forall_impl; [exact Hds|]. intros c Hc. by apply Hwf.
Qed.

Lemma py_int_group marker s g :
  runtime_wf rt ->
  search_digits_then rt marker s = Some g -> is_Some (py_int rt g).
Proof.
  intros Hwf Hs. apply search_digits_then_digits in Hs as [Hne Hds].
  by apply py_int_digits.
Qed.

(** [parse_duration] returns, and never more than a day. *)
Lemma parse_duration_returns s :
  runtime_wf rt ->
  exists total_minutes display,
    parse_duration rt s = inr (total_minutes, display) /\
    total_minutes <= 1440.
Proof.
  intros Hwf. unfold parse_duration.
  destruct s as [|c s]; [eexists _, _; split; [done|lia]|].
  set (d := c :: s).
  destruct (search_digits_then rt HOUR d) as [gh|] eqn:Hh.
  - destruct (py_int_group _ _ _ Hwf Hh) as [h ->].
    destruct (search_digits_then rt MINUTE d) as [gm|] eqn:Hm.
    + destruct (py_int_group _ _ _ Hwf Hm) as [m ->].
      destruct (0 + h * 60 + m =? 0); [destruct (py_int rt d)|];
        eexists _, _; (split; [done|lia]).
    + destruct (0 + h * 60 =? 0); [destruct (py_int rt d)|];
        eexists _, _; (split; [done|lia]).
  - destruct (search_digits_then rt MINUTE d) as [gm|] eqn:Hm.
    + destruct (py_int_group _ _ _ Hwf Hm) as [m ->].
      destruct (0 + m =? 0); [destruct (py_int rt d)|];
        eexists _, _; (split; [done|lia]).
    + simpl. destruct (py_int rt d); eexists _, _; (split; [done|lia]).
Qed.

(** The guard of the mute command brings every result into 1..1440. *)
Lemma mute_duration_of_parse s total_minutes display :
  parse_duration rt s = inr (total_minutes, display) ->
  total_minutes <= 1440 ->
  exists used shown_as,
    mute_duration rt s = inr (used, shown_as) /\
    1 <= used <= 1440 /\
    used = (if total_minutes <=? 0 then 60 else total_minutes).
Proof.
  intros Hp Hle. unfold mute_duration. rewrite Hp.
  destruct (total_minutes <=? 0) eqn:Hz; eexists _, _; (split; [done|]).
  - lia.
  - apply Z.leb_gt in Hz. lia.
Qed.

End ParserFacts.

Lemma ascii_runtime_wf : runtime_wf ascii_runtime.
Proof.
  intros c. unfold is_digit, ascii_runtime, ascii_decimal, ascii_int_isspace.
  simpl. destruct (48 <=? c) eqn:H1, (c <=? 57) eqn:H2; simpl; try discriminate.
  intros _. apply Z.leb_le in H1, H2.
  split; [|lia].
  apply orb_false_intro; [apply andb_false_intro2|]; lia.
Qed.






Example parse_2h30m :
  parse_duration ascii_runtime (py "2ч30м") = inr (150, py "2ч 30м").
Proof. vm_compute. reflexivity. Qed.

Example parse_zero :
  parse_duration ascii_runtime (py "0") = inr (0, py "0ч").
Proof. vm_compute. reflexivity. Qed.

Example parse_zero_h :
  parse_duration ascii_runtime (py "0ч") = inr (60, py "0ч 1ч").
Proof. vm_compute. reflexivity. Qed.

Example parse_abc :
  parse_duration ascii_runtime (py "abc") = inr (60, py "1ч").
Proof. vm_compute. reflexivity. Qed.

Example parse_neg :
  parse_duration ascii_runtime (py "-5") = inr (-300, py "-5ч").
Proof. vm_compute. reflexivity. Qed.

Example parse_50h :
  parse_duration ascii_runtime (py "50ч") = inr (1440, py "50ч").
Proof. vm_compute. reflexivity. Qed.

Example split1_keeps_rest :
  split1 ascii_runtime (py "/mute  30м  spam bot") = [py "/mute"; py "30м  spam bot"].
Proof. vm_compute. reflexivity. Qed.

Example extract_user_id_finds_link :
  extract_user_id ascii_runtime
    (mkMessage 0 (py "Bot") (Some (py "Профиль: tg://user?id=7012 hello")) None None)
  = inr 7012.
Proof. vm_compute. reflexivity. Qed.

(** ** The registry *)

(** Unfolding of the monad's operations. *)
Ltac munfold :=
  repeat (progress (
    unfold mbind, M_bind, mret, M_ret, fmap, M_fmap, raise, lift, try_except,
      except_ValueError, except_TelegramAPIError, except_Exception,
      get_muted, get_banned, set_muted, set_banned, muted_item, banned_item,
      del_muted, del_banned, now, call, send_message, reply, copy_to, sleep,
      log; simpl)).

(** Case analysis on what the outside world answers to a transport call. *)
Ltac answers :=
  repeat match goal with
    | |- context [transport ?e ?k] =>
        destruct (transport e k) as [[]|] eqn:?; simpl
    end.

Section RegistryFacts.

Variable e : env.

(** What [is_user_muted] does, case by case. *)
Lemma is_user_muted_run user_id w :
  is_user_muted e user_id w =
    match muted_users w !! user_id with
    | Some (unmute_time, _) =>
        let t := clock e (length (trace w)) in
        if t <? unmute_time
        then (inr true, mkWorld (muted_users w) (banned_users w) (trace w ++ [EvNow t]))
        else (inr false, mkWorld (delete user_id (muted_users w)) (banned_users w)
                           (trace w ++ [EvNow t]))
    | None => (inr false, w)
    end.
Proof.
  unfold is_user_muted. munfold.
  destruct (muted_users w !! user_id) as [[unmute_time reason]|] eqn:Hm; simpl.
  - rewrite Hm. simpl. destruct (_ <? unmute_time); simpl; [done|].
    by rewrite Hm.
  - done.
Qed.

(** [is_user_banned] only reads. *)
Lemma is_user_banned_run user_id w :
  is_user_banned user_id w =
    (inr (bool_decide (is_Some (banned_users w !! user_id))), w).
Proof. reflexivity. Qed.

Variable rt : runtime.

(** The registries after a ban, whatever happens to the notification. *)
Lemma command_ban_registry user_id command_parts w :
  let w' := (command_ban rt e user_id command_parts w).2 in
  banned_users w' = <[user_id := ban_reason rt command_parts]> (banned_users w) /\
  muted_users w' = delete user_id (muted_users w).
Proof.
  unfold command_ban. munfold.
  destruct (muted_users w !! user_id) eqn:Hm; simpl.
  - rewrite Hm; simpl. answers; done.
  - answers; by rewrite delete_id.
Qed.

(** Unmuting a user who has no record. *)
Lemma command_unmute_absent user_id w :
  muted_users w !! user_id = None ->
  command_unmute e user_id w =
    (match transport e (length (trace w)) with
     | None => inr tt
     | Some (TelegramAPIError msg) =>
         match transport e (S (length (trace w))) with
         | None => inr tt
         | Some x => inl x
         end
     | Some x => inl x
     end,
     mkWorld (muted_users w) (banned_users w)
       (trace w ++ EvReply (py "❌ Пользователь не замучен.") ::
          match transport e (length (trace w)) with
          | Some (TelegramAPIError msg) =>
              [EvReply (py "❌ Ошибка при размуте: " ++ msg)]
          | _ => []
          end)).
Proof.
  intros Hm. unfold command_unmute. munfold. rewrite Hm. simpl.
  destruct (transport e (length (trace w))) as [[]|] eqn:Ht; simpl; try done.
  rewrite length_app, Nat.add_1_r. simpl.
  answers; by rewrite <- app_assoc.
Qed.


(** The registries after the other three commands, whatever the transport
    does. *)
Lemma command_mute_registry user_id command_parts w :
  let w' := (command_mute rt e user_id command_parts w).2 in
  banned_users w' = banned_users w /\
  (muted_users w' = muted_users w \/
   banned_users w !! user_id = None /\
   exists record, muted_users w' = <[user_id := record]> (muted_users w)).
Proof.
  unfold command_mute. munfold.
  destruct (banned_users w !! user_id) eqn:Hb; simpl.
  - answers; auto.
  - destruct (mute_args rt command_parts) as [x|[duration_str reason]]; simpl.
    + destruct x; simpl; answers; auto.
    + destruct (mute_duration rt duration_str) as [x|[total display]]; simpl.
      * destruct x; simpl; answers; auto.
      * answers; eauto 10.
Qed.

Lemma command_unmute_registry user_id w :
  let w' := (command_unmute e user_id w).2 in
  banned_users w' = banned_users w /\
  muted_users w' = delete user_id (muted_users w).
Proof.
  unfold command_unmute. munfold.
  destruct (muted_users w !! user_id) eqn:Hm; simpl.
  - rewrite Hm. simpl. answers; done.
  - answers; by rewrite delete_id.
Qed.

Lemma command_unban_registry user_id w :
  let w' := (command_unban e user_id w).2 in
  banned_users w' = delete user_id (banned_users w) /\
  muted_users w' = muted_users w.
Proof.
  unfold command_unban. munfold.
  destruct (banned_users w !! user_id) eqn:Hm; simpl.
  - rewrite Hm. simpl. answers; done.
  - answers; by rewrite delete_id.
Qed.

(** The command a message of the staff group runs. *)
Lemma handle_admin_commands_dispatch message replied user_id body word rest w :
  reply_to_message message = Some replied ->
  extract_user_id rt replied = inr user_id ->
  text message = Some body ->
  split1 rt (strip rt body) = word :: rest ->
  handle_admin_commands rt e message w =
    (if decide (lower rt word = py "/ban") then
       command_ban rt e user_id (word :: rest)
     else if decide (lower rt word = py "/mute") then
       command_mute rt e user_id (word :: rest)
     else if decide (lower rt word = py "/unmute") then
       command_unmute e user_id
     else if decide (lower rt word = py "/unban") then
       command_unban e user_id
     else reply e help_text) w.
Proof.
  intros Hr Hx Ht Hs. unfold handle_admin_commands, extract_replied_user_id.
  rewrite Hr. munfold. rewrite Hx, Ht, Hs. reflexivity.
Qed.

Lemma command_ban_undelivered user_id command_parts w msg :
  transport e (length (trace w)) = Some (TelegramAPIError msg) ->
  command_ban rt e user_id command_parts w =
    (reply_outcome e (S (length (trace w))),
     mkWorld (delete user_id (muted_users w))
       (<[user_id := ban_reason rt command_parts]> (banned_users w))
       (trace w ++
          [EvSendMessage (ToUser user_id) (ban_notice (ban_reason rt command_parts));
           EvReply (py "❌ Ошибка при блокировке: " ++ msg)])).
Proof.
  intros Ht. unfold command_ban, reply_outcome. munfold.
  destruct (muted_users w !! user_id) eqn:Hm; simpl;
    rewrite ?Hm; simpl; rewrite Ht; simpl;
    rewrite ?length_app, ?Nat.add_1_r; simpl;
    answers; rewrite <- ?app_assoc, ?(delete_id _ _ Hm); done.
Qed.

Lemma command_mute_undelivered user_id command_parts w msg
    duration_str reason total_minutes time_display :
  banned_users w !! user_id = None ->
  mute_args rt command_parts = inr (duration_str, reason) ->
  mute_duration rt duration_str = inr (total_minutes, time_display) ->
  transport e (S (length (trace w))) = Some (TelegramAPIError msg) ->
  let t := clock e (length (trace w)) in
  let unmute_time := t + total_minutes * 60000000 in
  command_mute rt e user_id command_parts w =
    (reply_outcome e (S (S (length (trace w)))),
     mkWorld (<[user_id := (unmute_time, reason)]> (muted_users w))
       (banned_users w)
       (trace w ++
          [EvNow t;
           EvSendMessage (ToUser user_id)
             (mute_notice time_display reason (strftime rt unmute_time));
           EvReply (py "❌ Ошибка при муте: " ++ msg)])).
Proof.
  intros Hb Ha Hd Ht. unfold command_mute, reply_outcome. munfold.
  rewrite Hb, Ha. simpl. rewrite Hd. simpl.
  rewrite ?length_app, ?Nat.add_1_r; simpl. rewrite Ht. simpl.
  rewrite ?length_app, ?Nat.add_1_r; simpl.
  answers; rewrite <- ?app_assoc; done.
Qed.

Lemma command_unmute_undelivered user_id w msg :
  is_Some (muted_users w !! user_id) ->
  transport e (length (trace w)) = Some (TelegramAPIError msg) ->
  command_unmute e user_id w =
    (reply_outcome e (S (length (trace w))),
     mkWorld (delete user_id (muted_users w)) (banned_users w)
       (trace w ++
          [EvSendMessage (ToUser user_id) unmute_notice;
           EvReply (py "❌ Ошибка при размуте: " ++ msg)])).
Proof.
  intros [rec Hm] Ht. unfold command_unmute, reply_outcome. munfold.
  rewrite Hm. simpl. rewrite Hm. simpl. rewrite Ht. simpl.
  rewrite ?length_app, ?Nat.add_1_r; simpl.
  answers; rewrite <- ?app_assoc; done.
Qed.

Lemma command_unban_undelivered user_id w msg :
  is_Some (banned_users w !! user_id) ->
  transport e (length (trace w)) = Some (TelegramAPIError msg) ->
  command_unban e user_id w =
    (reply_outcome e (S (length (trace w))),
     mkWorld (muted_users w) (delete user_id (banned_users w))
       (trace w ++
          [EvSendMessage (ToUser user_id) unban_notice;
           EvReply (py "❌ Ошибка при разблокировке: " ++ msg)])).
Proof.
  intros [rec Hm] Ht. unfold command_unban, reply_outcome. munfold.
  rewrite Hm. simpl. rewrite Hm. simpl. rewrite Ht. simpl.
  rewrite ?length_app, ?Nat.add_1_r; simpl.
  answers; rewrite <- ?app_assoc; done.
Qed.

(** No admin command puts a user into both registries: a ban deletes the
    mute, and a banned user is not muted. *)
Lemma handle_admin_commands_keeps_disjoint message w :
  registries_disjoint w ->
  registries_disjoint (handle_admin_commands rt e message w).2.
Proof.
  intros Hd. unfold handle_admin_commands, extract_replied_user_id.
  destruct (reply_to_message message) as [replied|]; [|done].
  unfold mbind at 1, M_bind, fmap, M_fmap, try_except, lift.
  destruct (extract_user_id rt replied) as [x|user_id]; simpl.
  { destruct x; simpl; try done. munfold. answers; done. }
  destruct (text message) as [body|]; [|done].
  destruct (split1 rt (strip rt body)) as [|word rest]; [done|].
  repeat case_decide.
  - destruct (command_ban_registry user_id (word :: rest) w) as [Hb Hm].
    intros uid [rec Hr]. rewrite Hb. rewrite Hm in Hr.
    destruct (decide (user_id = uid)) as [->|Hne].
    + by rewrite lookup_delete_eq in Hr.
    + rewrite lookup_insert_ne by done. rewrite lookup_delete_ne in Hr by done.
      apply Hd. by eexists.
  - destruct (command_mute_registry user_id (word :: rest) w)
      as [Hb [Hm|(Hnb & rec & Hm)]];
      intros uid Hr; rewrite Hb; rewrite Hm in Hr; [by apply Hd|].
    destruct (decide (user_id = uid)) as [->|Hne]; [done|].
    rewrite lookup_insert_ne in Hr by done. by apply Hd.
  - destruct (command_unmute_registry user_id w) as [Hb Hm].
    intros uid [rec Hr]. rewrite Hb. rewrite Hm in Hr.
    apply Hd. apply lookup_delete_Some in Hr as [_ Hr]. by eexists.
  - destruct (command_unban_registry user_id w) as [Hb Hm].
    intros uid Hr. rewrite Hb. rewrite Hm in Hr.
    apply lookup_delete_None. right. by apply Hd.
  - munfold. answers; done.
Qed.



(** A sender who is neither banned nor muted passes the two checks; a
    record that has run out is dropped on the way. *)
Lemma restricted_passes message w :
  banned_users w !! from_user_id message = None ->
  (forall unmute_time reason,
      muted_users w !! from_user_id message = Some (unmute_time, reason) ->
      unmute_time <= clock e (length (trace w))) ->
  restricted e message w =
    (inr false, (is_user_muted e (from_user_id message) w).2) /\
  List.filter is_forward
    (new_events w (is_user_muted e (from_user_id message) w).2) = [] /\
  exists checks,
    trace (is_user_muted e (from_user_id message) w).2 = trace w ++ checks.
Proof.
  intros Hb Hm. unfold restricted.
  assert (Hrun := is_user_muted_run (from_user_id message) w).
  unfold new_events.
  destruct (muted_users w !! from_user_id message) as [[ut r]|] eqn:Hl.
  - specialize (Hm ut r eq_refl). apply Z.ltb_ge in Hm.
    simpl in Hrun. rewrite Hm in Hrun.
    unfold mbind at 1, M_bind. rewrite is_user_banned_run, Hb. simpl.
    unfold mbind, M_bind. rewrite Hrun. simpl.
    rewrite drop_app_length. split; [done|]. split; [done|]. by eexists.
  - unfold mbind at 1, M_bind. rewrite is_user_banned_run, Hb. simpl.
    unfold mbind, M_bind. rewrite Hrun. simpl.
    rewrite drop_all. split; [done|]. split; [done|]. exists []. by rewrite app_nil_r.
Qed.

Lemma new_events_call ev w w1 checks :
  trace w1 = trace w ++ checks ->
  new_events w (call e ev w1).2 = checks ++ [ev].
Proof.
  intros Ht. unfold new_events, call.
  destruct (transport e (length (trace w1))); simpl;
    by rewrite Ht, <- app_assoc, drop_app_length.
Qed.

Lemma new_events_extend w w1 w2 checks more :
  trace w1 = trace w ++ checks ->
  trace w2 = trace w1 ++ more ->
  new_events w w2 = checks ++ more.
Proof.
  intros H1 H2. unfold new_events.
  by rewrite H2, H1, <- app_assoc, drop_app_length.
Qed.

Lemma new_events_copy_to body complaint w w1 checks :
  trace w1 = trace w ++ checks ->
  exists more,
    new_events w
      (try_except (copy_to e ToGroup body)
         (except_TelegramAPIError (fun msg => reply e (complaint msg))) w1).2 =
      checks ++ EvCopyTo ToGroup body :: more /\
    List.filter is_forward more = [].
Proof.
  intros Ht. munfold.
  destruct (transport e (length (trace w1))) as [[]|] eqn:Hc; simpl;
    try (exists []; split; [|done];
         eapply new_events_extend; [exact Ht|reflexivity]).
  exists [EvReply (complaint message)]. split; [|done].
  eapply new_events_extend; [exact Ht|].
  answers; by rewrite <- app_assoc.
Qed.

End RegistryFacts.

(** ** The expiry sweeper *)

Section SweeperFacts.

Variable e : env.

Lemma elem_of_expired_at t m user_id :
  user_id ∈ expired_at t m <->
  exists unmute_time reason,
    m !! user_id = Some (unmute_time, reason) /\ unmute_time <= t.
Proof.
  unfold expired_at. rewrite list_elem_of_fmap. split.
  - intros ([k [ut r]] & -> & Hin). apply list_elem_of_In, filter_In in Hin.
    destruct Hin as [Hin Hexp]. apply list_elem_of_In, elem_of_map_to_list in Hin.
    simpl in *. apply Z.leb_le in Hexp. eauto.
  - intros (ut & r & Hm & Hle). exists (user_id, (ut, r)). split; [done|].
    apply list_elem_of_In, filter_In. split.
    + by apply list_elem_of_In, elem_of_map_to_list.
    + simpl. by apply Z.leb_le.
Qed.

Lemma NoDup_fst_filter {A} (f : Z * A -> bool) (l : list (Z * A)) :
  NoDup (l.*1) -> NoDup ((List.filter f l).*1).
Proof.
  induction l as [|x l IH]; simpl; [done|].
  rewrite NoDup_cons. intros [Hx Hl].
  destruct (f x); simpl; [|by apply IH].
  apply NoDup_cons. split; [|by apply IH].
  intros Hin. apply Hx. apply list_elem_of_fmap in Hin as (y & -> & Hy).
  apply list_elem_of_fmap. exists y. split; [done|].
  apply list_elem_of_In, filter_In in Hy as [Hy _]. by apply list_elem_of_In.
Qed.

Lemma NoDup_expired_at t m : NoDup (expired_at t m).
Proof. apply NoDup_fst_filter, NoDup_fst_map_to_list. Qed.

Lemma lookup_foldl_delete (l : list Z) (m : gmap Z (Z * str)) k :
  foldl (fun acc user_id => delete user_id acc) m l !! k =
    if decide (k ∈ l) then None else m !! k.
Proof.
  revert m. induction l as [|x l IH]; intros m; cbn [foldl].
  - by rewrite decide_False by apply not_elem_of_nil.
  - rewrite IH. destruct (decide (k ∈ l)) as [Hin|Hnin].
    + by rewrite decide_True by by right.
    + destruct (decide (k = x)) as [->|Hne].
      * rewrite decide_True by by left. apply lookup_delete_eq.
      * rewrite decide_False by (rewrite elem_of_cons; tauto).
        by apply lookup_delete_ne.
Qed.

(** The second loop of the sweep: every collected user is deleted and
    notified; a failed notification stops nothing. *)
Lemma unmute_expired_run (l : list Z) w :
  NoDup l ->
  (forall user_id, user_id ∈ l -> is_Some (muted_users w !! user_id)) ->
  unmute_expired e l w =
    (inr tt,
     mkWorld (foldl (fun acc user_id => delete user_id acc) (muted_users w) l)
       (banned_users w)
       (trace w ++ (notify_expired <$> l))).
Proof.
  revert w. induction l as [|x l IH]; intros w Hnd Hin.
  - destruct w. simpl. by rewrite app_nil_r.
  - apply NoDup_cons in Hnd as [Hx Hnd].
    destruct (Hin x) as [rec Hrec]; [by left|].
    change (unmute_expired e (x :: l)) with
      (del_muted x ;;
       try_except (send_message e (ToUser x) expired_notice)
         (except_Exception (fun _ => mret tt)) ;;
       unmute_expired e l).
    munfold. rewrite Hrec. simpl.
    assert (Hnext : forall tr,
               unmute_expired e l
                 (mkWorld (delete x (muted_users w)) (banned_users w) tr) =
               (inr tt,
                mkWorld (foldl (fun acc user_id => delete user_id acc)
                           (delete x (muted_users w)) l)
                  (banned_users w) (tr ++ (notify_expired <$> l)))).
    { intros tr. rewrite IH; [done|done|]. simpl. intros y Hy.
      rewrite lookup_delete_ne by (intros ->; done). apply Hin. by right. }
    destruct (transport e (length (trace w))); simpl;
      rewrite Hnext, <- app_assoc; done.
Qed.

(** One pass of the sweeper. *)
Lemma sweep_cycle_run w :
  let t := clock e (length (trace w)) in
  sweep_cycle e w =
    (inr tt,
     mkWorld (filter (fun item : Z * (Z * str) => t < item.2.1) (muted_users w))
       (banned_users w)
       (trace w ++ EvNow t ::
          (notify_expired <$> expired_at t (muted_users w)) ++ [EvSleep 60])).
Proof.
  intros t. unfold sweep_cycle. munfold. fold t.
  rewrite unmute_expired_run; simpl.
  - f_equal. f_equal.
    + apply map_eq. intros k. rewrite lookup_foldl_delete.
      match goal with
      | |- context [decide (k ∈ ?l)] =>
          change l with (expired_at t (muted_users w));
          destruct (decide (k ∈ expired_at t (muted_users w))) as [Hin|Hnin]
      end.
      * apply elem_of_expired_at in Hin as (ut & r & Hm & Hle).
        symmetry. apply map_lookup_filter_None. right.
        intros x Hx. simpl. rewrite Hm in Hx. injection Hx as <-. simpl. lia.
      * destruct (muted_users w !! k) as [[ut r]|] eqn:Hm.
        -- symmetry. apply map_lookup_filter_Some. split; [done|]. simpl.
           destruct (decide (t < ut)); [done|]. exfalso. apply Hnin.
           apply elem_of_expired_at. exists ut, r. split; [done|lia].
        -- symmetry. apply map_lookup_filter_None. by left.
    + rewrite <- !app_assoc. done.
  - apply NoDup_expired_at.
  - intros uid Hin. apply elem_of_expired_at in Hin as (ut & r & Hm & _).
    by eexists.
Qed.

(** The loop only adds to the trace, and its passes end normally. *)
Lemma check_mute_expirations_run n w :
  exists later,
    (check_mute_expirations e n w).1 = inr tt /\
    trace (check_mute_expirations e n w).2 = trace w ++ later.
Proof.
  revert w. induction n as [|n IH]; intros w.
  - exists []. by rewrite app_nil_r.
  - change (check_mute_expirations e (S n)) with
      (sweep_cycle e ;; check_mute_expirations e n).
    unfold mbind, M_bind. rewrite sweep_cycle_run.
    match goal with |- context [check_mute_expirations e n ?w1] =>
      destruct (IH w1) as (later & Hr & Ht) end.
    eexists. split; [exact Hr|]. rewrite Ht. simpl.
    rewrite <- app_assoc. reflexivity.
Qed.

End SweeperFacts.

(** C3: one pass of the sweeper deletes from [muted_users] exactly the
    records whose unmute time is not after the clock reading of the pass,
    keeps every other record as it is, and does not touch [banned_users]:
    of N + M records, N expired and M not, the M remain. *)
Theorem sweep_removes_exactly_expired (e : env) (w : world) :
  let t := clock e (length (trace w)) in
  let expired := filter (fun item : Z * (Z * str) => item.2.1 <= t) (muted_users w) in
  let live := filter (fun item : Z * (Z * str) => t < item.2.1) (muted_users w) in
  let r := sweep_cycle e w in
  r.1 = inr tt /\
  muted_users r.2 = live /\
  banned_users r.2 = banned_users w /\
  size (muted_users w) = (size expired + size (muted_users r.2))%nat /\
  (forall user_id unmute_time reason,
      muted_users w !! user_id = Some (unmute_time, reason) ->
      muted_users r.2 !! user_id =
        if decide (unmute_time <= t) then None else Some (unmute_time, reason)).
Proof.
  intros t expired live r. subst r. rewrite sweep_cycle_run. simpl. fold t.
  repeat split.
  - subst expired.
    rewrite <- (map_filter_union_complement
                  (fun item : Z * (Z * str) => item.2.1 <= t) (muted_users w)) at 1.
    rewrite map_size_disj_union by apply map_disjoint_filter_complement.
    f_equal. f_equal. apply map_filter_ext. intros i x _. simpl. lia.
  - intros user_id unmute_time reason Hm.
    destruct (decide (unmute_time <= t)).
    + apply map_lookup_filter_None. right. intros x Hx.
      rewrite Hm in Hx. injection Hx as <-. simpl. lia.
    + apply map_lookup_filter_Some. split; [done|]. simpl. lia.
Qed.



(** C1: [is_user_muted] answers true exactly when the user has a record and
    the clock it reads is strictly before the record's unmute time; when the
    record has run out it is deleted from [muted_users] and the answer is
    false. *)
Theorem is_user_muted_iff_live_record (e : env) (user_id : Z) (w : world) :
  let t := clock e (length (trace w)) in
  let r := is_user_muted e user_id w in
  (exists answer, r.1 = inr answer) /\
  (r.1 = inr true <->
     exists unmute_time reason,
       muted_users w !! user_id = Some (unmute_time, reason) /\ t < unmute_time) /\
  (forall unmute_time reason,
      muted_users w !! user_id = Some (unmute_time, reason) ->
      unmute_time <= t ->
      r.1 = inr false /\ muted_users r.2 = delete user_id (muted_users w)) /\
  (r.1 = inr true \/ muted_users w !! user_id = None ->
      muted_users r.2 = muted_users w) /\
  banned_users r.2 = banned_users w.
Proof.
  intros t r. subst r. rewrite is_user_muted_run.
  destruct (muted_users w !! user_id) as [[ut reason]|] eqn:Hm; simpl.
  - fold t. destruct (t <? ut) eqn:Hlt; simpl.
    + apply Z.ltb_lt in Hlt. repeat split; eauto; intros; simplify_eq; lia.
    + apply Z.ltb_ge in Hlt. repeat split; eauto; try discriminate.
      * intros (ut' & reason' & ? & ?). simplify_eq. lia.
      * intros [?|?]; discriminate.
  - repeat split; eauto; try discriminate.
    intros (? & ? & ? & _). discriminate.
Qed.

(** C2: from any registry, the ban command stores the given reason for the
    user in [banned_users] (replacing an earlier one) and removes the user's
    record from [muted_users]; right afterwards [is_user_muted] is false
    and [is_user_banned] is true, whatever became of the notification. *)
Theorem ban_sets_ban_and_clears_mute
    (rt : runtime) (e e' : env) (user_id : Z) (command_parts : list str) (w : world) :
  let w' := (command_ban rt e user_id command_parts w).2 in
  banned_users w' = <[user_id := ban_reason rt command_parts]> (banned_users w) /\
  muted_users w' = delete user_id (muted_users w) /\
  (is_user_muted e' user_id w').1 = inr false /\
  (is_user_banned user_id w').1 = inr true.
Proof.
  intros w'. destruct (command_ban_registry e rt user_id command_parts w) as [Hb Hm].
  fold w' in Hb, Hm. repeat split; [done..| |].
  - rewrite is_user_muted_run, Hm, lookup_delete_eq. done.
  - by rewrite is_user_banned_run, Hb, lookup_insert_eq.
Qed.

(** C9: for a user with no record in [muted_users] the unmute command
    answers that the user is not muted, sends the user nothing, and leaves
    both registries as they were. *)
Theorem unmute_without_record_changes_nothing (e : env) (user_id : Z) (w : world) :
  muted_users w !! user_id = None ->
  let w' := (command_unmute e user_id w).2 in
  head (new_events w w') = Some (EvReply (py "❌ Пользователь не замучен.")) /\
  (EvReply (py "✅ С пользователя сняты ограничения.") ∉ new_events w w') /\
  List.filter is_notification (new_events w w') = [] /\
  muted_users w' = muted_users w /\
  banned_users w' = banned_users w.
Proof.
  intros Hm w'. subst w'. rewrite command_unmute_absent by done.
  unfold new_events. simpl. rewrite drop_app_length. simpl.
  repeat split; try done.
  - assert (Hne : forall msg : str,
               EvReply (py "✅ С пользователя сняты ограничения.") <>
               EvReply (py "❌ Ошибка при размуте: " ++ msg)).
    { intros msg H.
      apply (f_equal (fun ev => match ev with EvReply b => head b | _ => None end)) in H.
      vm_compute in H. discriminate H. }
    destruct (transport e (length (trace w))) as [[]|];
      rewrite ?elem_of_cons, ?elem_of_nil; intros H;
      repeat destruct H as [H|H]; try done;
      try (by eapply Hne); vm_compute in H; discriminate H.
  - destruct (transport e (length (trace w))) as [[]|]; done.
Qed.

(** C8: a private message of a sender who is neither banned nor muted.  A
    text of more than 4000 characters, or media with a caption of more than
    1000 characters, is answered with the length error and nothing goes to
    the staff group; within the limits the message goes to the staff
    group. *)
Theorem length_limits_decide_forwarding (e : env) (message : Message) (w : world) :
  banned_users w !! from_user_id message = None ->
  (forall unmute_time reason,
      muted_users w !! from_user_id message = Some (unmute_time, reason) ->
      unmute_time <= clock e (length (trace w))) ->
  (forall body,
      text message = Some body ->
      let sent := new_events w (send_message_to_group e message w).2 in
      if 4000 <? Z.of_nat (length body)
      then last sent = Some (EvReply too_long_text) /\
           List.filter is_forward sent = []
      else List.filter is_forward sent =
             [EvSendMessage ToGroup (group_text message body)]) /\
  (let sent := new_events w (supported_media e message w).2 in
   if 1000 <? Z.of_nat (length (default [] (truthy (caption message))))
   then last sent = Some (EvReply too_long_caption) /\
        List.filter is_forward sent = []
   else List.filter is_forward sent =
          [EvCopyTo ToGroup (group_caption message)]).
Proof.
  intros Hb Hm.
  destruct (restricted_passes e message w Hb Hm) as (Hr & Hf & checks & Htr).
  unfold new_events in Hf. rewrite Htr, drop_app_length in Hf.
  split.
  - intros body Ht sent. subst sent. unfold send_message_to_group.
    unfold mbind, M_bind. rewrite Hr, Ht.
    unfold reply, send_message.
    destruct (4000 <? _); rewrite (new_events_call e _ w _ checks Htr).
    + rewrite last_snoc, List.filter_app, Hf. done.
    + rewrite List.filter_app, Hf. done.
  - intros sent. subst sent. unfold supported_media.
    unfold mbind, M_bind. rewrite Hr.
    assert (Hlen : match truthy (caption message) with
                   | Some c => 1000 <? Z.of_nat (length c)
                   | None => false
                   end = (1000 <? Z.of_nat (length (default [] (truthy (caption message)))))).
    { by destruct (truthy (caption message)). }
    cbv zeta. rewrite Hlen.
    destruct (1000 <? _).
    + unfold reply. rewrite (new_events_call e _ w _ checks Htr).
      rewrite last_snoc, List.filter_app, Hf. done.
    + destruct (new_events_copy_to e (group_caption message)
                  (fun msg => py "❌ Ошибка при отправке медиа: " ++ msg)
                  w _ checks Htr) as (more & -> & Hmore).
      rewrite List.filter_app, Hf. simpl. by rewrite Hmore.
Qed.

Lemma length_limits_decide_forwarding_witness :
  let message := user_message 7 (Some (py "help")) None in
  let sent := new_events sample_world
                (send_message_to_group (delivering 200) message sample_world).2 in
  List.filter is_forward sent = [EvSendMessage ToGroup (group_text message (py "help"))].
Proof.
  intros message sent.
  refine (proj1 (length_limits_decide_forwarding (delivering 200) message
                   sample_world _ _) (py "help") eq_refl).
  - vm_compute. reflexivity.
  - intros unmute_time reason H. vm_compute in H.
    injection H as <- _. vm_compute. discriminate.
Defined.

Lemma unmute_without_record_changes_nothing_witness :
  let w' := (command_unmute (delivering 200) 5 sample_world).2 in
  head (new_events sample_world w') = Some (EvReply (py "❌ Пользователь не замучен.")) /\
  (EvReply (py "✅ С пользователя сняты ограничения.") ∉ new_events sample_world w') /\
  List.filter is_notification (new_events sample_world w') = [] /\
  muted_users w' = muted_users sample_world /\
  banned_users w' = banned_users sample_world.
Proof.
  apply (unmute_without_record_changes_nothing (delivering 200) 5 sample_world).
  vm_compute. reflexivity.
Defined.

(** C7: in each of the four admin commands, when the platform refuses the
    notification to the target, the exception is caught inside the command:
    the next call is the reply that carries the error text to the invoker,
    the command ends with the outcome of that reply, and the registries
    are the ones the command had already written. *)
Theorem undelivered_notification_keeps_mutation
    (rt : runtime) (e : env) (user_id : Z) (command_parts : list str)
    (w : world) (msg : str) :
  let k := length (trace w) in
  (* ban *)
  (transport e k = Some (TelegramAPIError msg) ->
   command_ban rt e user_id command_parts w =
     (reply_outcome e (S k),
      mkWorld (delete user_id (muted_users w))
        (<[user_id := ban_reason rt command_parts]> (banned_users w))
        (trace w ++
           [EvSendMessage (ToUser user_id) (ban_notice (ban_reason rt command_parts));
            EvReply (py "❌ Ошибка при блокировке: " ++ msg)]))) /\
  (* mute *)
  (forall duration_str reason total_minutes time_display,
      banned_users w !! user_id = None ->
      mute_args rt command_parts = inr (duration_str, reason) ->
      mute_duration rt duration_str = inr (total_minutes, time_display) ->
      transport e (S k) = Some (TelegramAPIError msg) ->
      let unmute_time := clock e k + total_minutes * 60000000 in
      command_mute rt e user_id command_parts w =
        (reply_outcome e (S (S k)),
         mkWorld (<[user_id := (unmute_time, reason)]> (muted_users w))
           (banned_users w)
           (trace w ++
              [EvNow (clock e k);
               EvSendMessage (ToUser user_id)
                 (mute_notice time_display reason (strftime rt unmute_time));
               EvReply (py "❌ Ошибка при муте: " ++ msg)]))) /\
  (* unmute *)
  (is_Some (muted_users w !! user_id) ->
   transport e k = Some (TelegramAPIError msg) ->
   command_unmute e user_id w =
     (reply_outcome e (S k),
      mkWorld (delete user_id (muted_users w)) (banned_users w)
        (trace w ++
           [EvSendMessage (ToUser user_id) unmute_notice;
            EvReply (py "❌ Ошибка при размуте: " ++ msg)]))) /\
  (* unban *)
  (is_Some (banned_users w !! user_id) ->
   transport e k = Some (TelegramAPIError msg) ->
   command_unban e user_id w =
     (reply_outcome e (S k),
      mkWorld (muted_users w) (delete user_id (banned_users w))
        (trace w ++
           [EvSendMessage (ToUser user_id) unban_notice;
            EvReply (py "❌ Ошибка при разблокировке: " ++ msg)]))).
Proof.
  intros k. subst k. repeat split.
  - by apply command_ban_undelivered.
  - intros. by eapply command_mute_undelivered.
  - by apply command_unmute_undelivered.
  - by apply command_unban_undelivered.
Qed.

Lemma undelivered_notification_keeps_mutation_witness :
  let parts := [py "/mute"; py "30м spam"] in
  (* ban of user 7, muted until 100 *)
  (muted_users (command_ban ascii_runtime (refusing_at 0 200 (py "blocked")) 7
                  [py "/ban"] sample_world).2 !! 7 = None /\
   banned_users (command_ban ascii_runtime (refusing_at 0 200 (py "blocked")) 7
                   [py "/ban"] sample_world).2 !! 7 =
     Some (py "Заблокирован администратором")) /\
  (* mute of user 5 for 30 minutes *)
  muted_users (command_mute ascii_runtime (refusing_at 1 200 (py "blocked")) 5
                 parts sample_world).2 !! 5 = Some (1800000200, py "spam") /\
  (* unmute of user 8 *)
  muted_users (command_unmute (refusing_at 0 200 (py "blocked")) 8
                 sample_world).2 !! 8 = None /\
  (* unban of user 9 *)
  banned_users (command_unban (refusing_at 0 200 (py "blocked")) 9
                  sample_world).2 !! 9 = None.
Proof.
  intros parts.
  pose proof (undelivered_notification_keeps_mutation ascii_runtime
                (refusing_at 0 200 (py "blocked")) 7 [py "/ban"] sample_world
                (py "blocked")) as (Hban & _).
  pose proof (undelivered_notification_keeps_mutation ascii_runtime
                (refusing_at 1 200 (py "blocked")) 5 parts sample_world
                (py "blocked")) as (_ & Hmute & _).
  pose proof (undelivered_notification_keeps_mutation ascii_runtime
                (refusing_at 0 200 (py "blocked")) 8 [] sample_world
                (py "blocked")) as (_ & _ & Hunmute & _).
  pose proof (undelivered_notification_keeps_mutation ascii_runtime
                (refusing_at 0 200 (py "blocked")) 9 [] sample_world
                (py "blocked")) as (_ & _ & _ & Hunban).
  rewrite (Hban eq_refl).
  rewrite (Hmute (py "30м") (py "spam") 30 (py "30м")
             ltac:(vm_compute; reflexivity) ltac:(vm_compute; reflexivity)
             ltac:(vm_compute; reflexivity) eq_refl).
  rewrite (Hunmute ltac:(vm_compute; eexists; reflexivity) eq_refl).
  rewrite (Hunban ltac:(vm_compute; eexists; reflexivity) eq_refl).
  vm_compute. repeat split; reflexivity.
Defined.




(** A mute of 30 minutes by the staff, end to end. *)
Example mute_30_minutes :
  let r := handle_admin_commands ascii_runtime (delivering 200)
             (staff_message (py "/mute 30м spam")) sample_world in
  r.1 = inr tt /\
  muted_users r.2 !! 7 = Some (200 + 30 * 60000000, py "spam") /\
  last (trace r.2) = Some (EvReply (py "✅ Пользователь замучен на 30м.")).
Proof. vm_compute. repeat split; reflexivity. Qed.

(** A banned sender gets the reason back and nothing is forwarded. *)
Example banned_sender_is_dropped :
  let r := send_message_to_group (delivering 200)
             (user_message 9 (Some (py "hello")) None) sample_world in
  trace r.2 = [EvReply (banned_text (py "abuse"))].
Proof. vm_compute. reflexivity. Qed.

(** * Further properties of the code *)

(** ** The duration parser *)








(** ** Reading back what the bot has written *)

Section ReadBack.

Variable rt : runtime.
Hypothesis Hascii : runtime_reads_ascii rt.

Lemma uint_digits_ascii d : Forall (fun c => 48 <= c <= 57) (uint_digits d).
Proof. induction d; simpl; constructor; (lia || done). Qed.

Lemma ascii_is_digit c : 48 <= c <= 57 -> is_digit rt c = true.
Proof.
  intros Hc. unfold is_digit. destruct Hascii as [Hd _].
  destruct (Hd c Hc) as [-> _]. done.
Qed.

Lemma int_body_uint_acc d acc :
  int_body rt (Z.pos acc) true (uint_digits d) = Some (Z.pos (Pos.of_uint_acc d acc)).
Proof.
  destruct Hascii as [Hd _].
  revert acc. induction d; intros acc; simpl; [done|..];
    match goal with
    | |- context [decimal rt ?c] =>
        destruct (Hd c ltac:(lia)) as [-> _]; simpl
    end;
    rewrite <- IHd; f_equal; lia.
Qed.

Lemma int_body_uint d after :
  d <> Decimal.Nil \/ after = true ->
  int_body rt 0 after (uint_digits d) = Some (Z.of_N (Pos.of_uint d)).
Proof.
  destruct Hascii as [Hd _].
  revert after. induction d; intros after Hne; simpl.
  - destruct Hne as [ | -> ]; done.
  - destruct (Hd 48 ltac:(lia)) as [-> _]. simpl. apply IHd. by right.
  - destruct (Hd 49 ltac:(lia)) as [-> _]. simpl. apply (int_body_uint_acc d 1).
  - destruct (Hd 50 ltac:(lia)) as [-> _]. simpl. apply (int_body_uint_acc d 2).
  - destruct (Hd 51 ltac:(lia)) as [-> _]. simpl. apply (int_body_uint_acc d 3).
  - destruct (Hd 52 ltac:(lia)) as [-> _]. simpl. apply (int_body_uint_acc d 4).
  - destruct (Hd 53 ltac:(lia)) as [-> _]. simpl. apply (int_body_uint_acc d 5).
  - destruct (Hd 54 ltac:(lia)) as [-> _]. simpl. apply (int_body_uint_acc d 6).
  - destruct (Hd 55 ltac:(lia)) as [-> _]. simpl. apply (int_body_uint_acc d 7).
  - destruct (Hd 56 ltac:(lia)) as [-> _]. simpl. apply (int_body_uint_acc d 8).
  - destruct (Hd 57 ltac:(lia)) as [-> _]. simpl. apply (int_body_uint_acc d 9).
Qed.

Lemma to_int_nonneg n :
  0 <= n -> exists d, Z.to_int n = Decimal.Pos d /\ d <> Decimal.Nil.
Proof.
  destruct n as [|p|p]; intros Hn; [| |lia].
  - by exists (Decimal.D0 Decimal.Nil).
  - exists (Pos.to_uint p). split; [done|]. apply DecimalPos.Unsigned.to_uint_nonnil.
Qed.

(** [int(str(n)) = n] for the numbers a user id can be. *)
Lemma py_int_str_of_int n : 0 <= n -> py_int rt (str_of_int n) = Some n.
Proof.
  intros Hn. destruct (to_int_nonneg n Hn) as (d & Hd & Hnil).
  assert (Hof := DecimalZ.of_to n). rewrite Hd in Hof. simpl in Hof.
  unfold str_of_int. rewrite Hd. unfold py_int.
  rewrite strip_with_id.
  - assert (Hall := uint_digits_ascii d).
    destruct (uint_digits d) as [|c ds] eqn:Hds.
    { destruct d; done. }
    apply Forall_cons in Hall as [Hc _].
    replace (c =? 45) with false by (symmetry; apply Z.eqb_neq; lia).
    replace (c =? 43) with false by (symmetry; apply Z.eqb_neq; lia).
    rewrite <- Hds, int_body_uint by by left.
    by rewrite <- Hof.
  - eapply Forall_impl; [apply uint_digits_ascii|].
    intros c Hc. simpl. destruct Hascii as [Hdg _]. by destruct (Hdg c Hc).
Qed.

Lemma take_digits_then_stop (ds : str) c rest :
  Forall (fun c => is_digit rt c = true) ds ->
  is_digit rt c = false ->
  take_digits rt (ds ++ c :: rest) = ds.
Proof.
  intros Hds Hc. induction Hds as [|x ds Hx _ IH]; simpl.
  - by rewrite Hc.
  - by rewrite Hx, IH.
Qed.

Lemma strip_prefix_same (p r : str) : strip_prefix p (p ++ r) = Some r.
Proof. induction p as [|a p IH]; simpl; [done|]. by rewrite Z.eqb_refl. Qed.

(** A match of [p] at the start of [t ++ b] lies within [t], or [t] is the
    first part of [p] and the match goes on in [b]. *)
Lemma strip_prefix_app_inv (p t b r : str) :
  strip_prefix p (t ++ b) = Some r ->
  is_Some (strip_prefix p t) \/
  exists p2, p = t ++ p2 /\ p2 <> [] /\ strip_prefix p2 b = Some r.
Proof.
  revert t. induction p as [|a p IH]; intros t; simpl.
  - intros _. left. destruct t; by eexists.
  - destruct t as [|c t]; simpl.
    + intros H. right. exists (a :: p). by repeat split.
    + destruct (a =? c) eqn:Hac; [|discriminate].
      apply Z.eqb_eq in Hac as ->. intros H.
      destruct (IH t H) as [?|(p2 & -> & ? & ?)]; [by left|].
      right. by exists p2.
Qed.

Lemma strip_prefix_separator (p t b : str) x :
  p <> [] -> x ∉ p ->
  strip_prefix p t = None ->
  strip_prefix p (t ++ x :: b) = None.
Proof.
  intros Hp Hx Ht.
  destruct (strip_prefix p (t ++ x :: b)) as [r|] eqn:Hr; [|done].
  apply strip_prefix_app_inv in Hr as [[? Hs]|(p2 & -> & Hne & Hs)].
  - congruence.
  - destruct p2 as [|a p2]; [done|]. simpl in Hs.
    destruct (a =? x) eqn:Hax; [|discriminate].
    apply Z.eqb_eq in Hax as ->. exfalso. apply Hx.
    apply elem_of_app. right. by left.
Qed.

Lemma strip_prefix_head (p b : str) x :
  p <> [] -> x ∉ p -> strip_prefix p (x :: b) = None.
Proof.
  intros Hp Hx. apply (strip_prefix_separator p [] b x Hp Hx).
  by destruct p.
Qed.

(** The search for a profile link passes over a stretch of text that
    holds no ["tg://user?id="] and ends in a character that is not part of
    it. *)
Lemma search_profile_link_skip (a b : str) x :
  x ∉ py "tg://user?id=" ->
  occurs (py "tg://user?id=") a = false ->
  search_profile_link rt (a ++ x :: b) = search_profile_link rt b.
Proof.
  intros Hx.
  assert (Hp : py "tg://user?id=" <> []) by (vm_compute; discriminate).
  induction a as [|c a IH]; intros Ha.
  - change (search_profile_link rt ([] ++ x :: b)) with
      (match match_profile_link rt (x :: b) with
       | Some g => Some g
       | None => search_profile_link rt b
       end).
    unfold match_profile_link.
    by rewrite (strip_prefix_head _ b x Hp Hx).
  - change (search_profile_link rt ((c :: a) ++ x :: b)) with
      (match match_profile_link rt ((c :: a) ++ x :: b) with
       | Some g => Some g
       | None => search_profile_link rt (a ++ x :: b)
       end).
    change (occurs (py "tg://user?id=") (c :: a)) with
      (match strip_prefix (py "tg://user?id=") (c :: a) with
       | Some _ => true
       | None => occurs (py "tg://user?id=") a
       end) in Ha.
    destruct (strip_prefix (py "tg://user?id=") (c :: a)) eqn:Hs; [discriminate|].
    unfold match_profile_link.
    rewrite (strip_prefix_separator _ (c :: a) b x Hp Hx Hs). by apply IH.
Qed.

Lemma occurs_separator (p a b : str) x :
  p <> [] -> x ∉ p ->
  occurs p a = false -> occurs p b = false ->
  occurs p (a ++ x :: b) = false.
Proof.
  intros Hp Hx Ha Hb. induction a as [|c a IH].
  - change (occurs p ([] ++ x :: b)) with
      (match strip_prefix p (x :: b) with
       | Some _ => true
       | None => occurs p b
       end).
    by rewrite (strip_prefix_head p b x Hp Hx).
  - change (occurs p (c :: a)) with
      (match strip_prefix p (c :: a) with
       | Some _ => true
       | None => occurs p a
       end) in Ha.
    destruct (strip_prefix p (c :: a)) eqn:Hs; [discriminate|].
    change (occurs p ((c :: a) ++ x :: b)) with
      (match strip_prefix p ((c :: a) ++ x :: b) with
       | Some _ => true
       | None => occurs p (a ++ x :: b)
       end).
    rewrite (strip_prefix_separator p (c :: a) b x Hp Hx Hs). by apply IH.
Qed.

(** A profile link at the very start of the text is the one found. *)
Lemma search_profile_link_here n c rest :
  0 <= n ->
  is_digit rt c = false ->
  search_profile_link rt (py "tg://user?id=" ++ str_of_int n ++ c :: rest) =
    Some (str_of_int n).
Proof.
  intros Hn Hc.
  assert (Hm : match_profile_link rt
                 (py "tg://user?id=" ++ str_of_int n ++ c :: rest) =
               Some (str_of_int n)).
  { unfold match_profile_link. rewrite strip_prefix_same.
    rewrite take_digits_then_stop; [|
      unfold str_of_int; destruct (to_int_nonneg n Hn) as (d & -> & _);
      eapply Forall_impl; [apply uint_digits_ascii|apply ascii_is_digit] | done].
    unfold str_of_int. destruct (to_int_nonneg n Hn) as (d & -> & Hd).
    destruct d; done. }
  destruct (py "tg://user?id=" ++ str_of_int n ++ c :: rest); simpl in *;
    by rewrite Hm.
Qed.

End ReadBack.

Lemma ascii_runtime_reads_ascii : runtime_reads_ascii ascii_runtime.
Proof.
  split; [|reflexivity]. intros c [H1 H2]. simpl.
  unfold ascii_decimal, ascii_int_isspace.
  apply Z.leb_le in H1 as H1', H2 as H2'. rewrite H1', H2'. simpl.
  split; [done|].
  apply orb_false_intro; [apply andb_false_intro2|]; lia.
Qed.

Lemma link_has_no_space : 32 ∉ py "tg://user?id=".
Proof. intros H. apply list_elem_of_In in H. vm_compute in H. intuition discriminate. Qed.

Lemma link_has_no_line_feed : 10 ∉ py "tg://user?id=".
Proof. intros H. apply list_elem_of_In in H. vm_compute in H. intuition discriminate. Qed.

(** X4: from the text that [send_message_to_group] sends to the staff
    group, [extract_user_id] reads the id of the sender, whatever the
    sender wrote, when the sender's full name holds no ["tg://user?id="]. *)
Theorem extract_user_id_reads_forwarded_text
    (rt : runtime) (message : Message) (body : str) :
  runtime_reads_ascii rt ->
  0 <= from_user_id message ->
  occurs (py "tg://user?id=") (from_user_full_name message) = false ->
  extract_user_id rt (forwarded_text message body) = inr (from_user_id message).
Proof.
  intros Hascii Hid Hname.
  assert (Hp : py "tg://user?id=" <> []) by (vm_compute; discriminate).
  assert (Hshape :
    group_text message body =
      (py "Имя:" ++ 32 :: (from_user_full_name message ++ 10 :: py "Профиль:")) ++
      32 :: (py "tg://user?id=" ++ str_of_int (from_user_id message) ++
             10 :: 10 :: body)).
  { unfold group_text, nl.
    replace (py "Имя: ") with (py "Имя:" ++ [32]) by (vm_compute; reflexivity).
    replace (py "Профиль: tg://user?id=")
      with (py "Профиль:" ++ 32 :: py "tg://user?id=") by (vm_compute; reflexivity).
    rewrite <- !app_assoc. simpl. rewrite <- !app_assoc. reflexivity. }
  assert (Htruthy : truthy (Some (group_text message body)) =
                    Some (group_text message body)).
  { rewrite Hshape. destruct (py "Имя:") eqn:E; [vm_compute in E; discriminate|done]. }
  unfold extract_user_id, forwarded_text. cbn [text caption].
  rewrite Htruthy, Hshape.
  rewrite search_profile_link_skip.
  - rewrite (search_profile_link_here rt Hascii) by (try done; unfold is_digit;
      by destruct Hascii as [_ ->]).
    by rewrite (py_int_str_of_int rt Hascii).
  - apply link_has_no_space.
  - apply occurs_separator; [done|apply link_has_no_space|by vm_compute|].
    apply occurs_separator; [done|apply link_has_no_line_feed|done|by vm_compute].
Qed.

Lemma extract_user_id_reads_forwarded_text_witness :
  extract_user_id ascii_runtime
    (forwarded_text (mkMessage 7012 (py "Ann tg://user") (Some (py "x")) None None)
       (py "see tg://user?id=5"))
  = inr 7012.
Proof.
  apply (extract_user_id_reads_forwarded_text ascii_runtime
           (mkMessage 7012 (py "Ann tg://user") (Some (py "x")) None None)
           (py "see tg://user?id=5")).
  - exact ascii_runtime_reads_ascii.
  - simpl. lia.
  - vm_compute. reflexivity.
Defined.

Section ReadBackMore.

Variable rt : runtime.
Hypothesis Hascii : runtime_reads_ascii rt.

Lemma take_digits_all (ds tail : str) :
  Forall (fun c => is_digit rt c = true) ds ->
  stops_digits rt tail ->
  take_digits rt (ds ++ tail) = ds.
Proof.
  intros Hds Ht. destruct tail as [|c rest].
  - rewrite app_nil_r. induction Hds as [|x ds Hx _ IH]; simpl; [done|].
    by rewrite Hx, IH.
  - by apply take_digits_then_stop.
Qed.

Lemma str_of_int_digits n :
  0 <= n ->
  str_of_int n <> [] /\ Forall (fun c => is_digit rt c = true) (str_of_int n).
Proof.
  intros Hn. unfold str_of_int. destruct (to_int_nonneg n Hn) as (d & -> & Hd).
  split; [by destruct d|].
  eapply Forall_impl; [apply uint_digits_ascii|]. by apply ascii_is_digit.
Qed.

(** A profile link at the very start of the text is the one found, up to
    where its digits stop. *)
Lemma search_profile_link_at_start n tail :
  0 <= n ->
  stops_digits rt tail ->
  search_profile_link rt (py "tg://user?id=" ++ str_of_int n ++ tail) =
    Some (str_of_int n).
Proof.
  intros Hn Ht. destruct (str_of_int_digits n Hn) as [Hne Hds].
  assert (Hm : match_profile_link rt (py "tg://user?id=" ++ str_of_int n ++ tail) =
               Some (str_of_int n)).
  { unfold match_profile_link. rewrite strip_prefix_same, take_digits_all by done.
    by destruct (str_of_int n). }
  destruct (py "tg://user?id=" ++ str_of_int n ++ tail); simpl in *; by rewrite Hm.
Qed.

Lemma line_feed_stops_digits tail : stops_digits rt (10 :: tail).
Proof. unfold stops_digits, is_digit. by destruct Hascii as [_ ->]. Qed.

Lemma stops_digits_app tail more :
  stops_digits rt tail -> stops_digits rt (tail ++ 10 :: more).
Proof. destruct tail; [intros _; apply line_feed_stops_digits|done]. Qed.

End ReadBackMore.

(** X5: from the caption that [supported_media] gives to the copy for the
    staff group, [extract_user_id] reads the id of the sender, when neither
    the sender's caption nor the sender's full name holds
    ["tg://user?id="]. *)
Theorem extract_user_id_reads_forwarded_media (rt : runtime) (message : Message) :
  runtime_reads_ascii rt ->
  0 <= from_user_id message ->
  occurs (py "tg://user?id=") (default [] (truthy (caption message))) = false ->
  occurs (py "tg://user?id=") (from_user_full_name message) = false ->
  extract_user_id rt (forwarded_media message) = inr (from_user_id message).
Proof.
  intros Hascii Hid Hcap Hname.
  assert (Hp : py "tg://user?id=" <> []) by (vm_compute; discriminate).
  set (cap := default [] (truthy (caption message))) in *.
  assert (Hshape :
    group_caption message =
      (cap ++ 10 :: ([] ++ 10 :: (py "Имя:" ++ 32 :: from_user_full_name message))) ++
      10 :: (py "tg://user?id=" ++ str_of_int (from_user_id message) ++ [])).
  { unfold group_caption, nl. fold cap.
    replace (py "Имя: ") with (py "Имя:" ++ [32]) by (vm_compute; reflexivity).
    rewrite <- !app_assoc. simpl. rewrite <- !app_assoc, app_nil_r. reflexivity. }
  assert (Htruthy : truthy (Some (group_caption message)) =
                    Some (group_caption message)).
  { rewrite Hshape. by destruct cap. }
  unfold extract_user_id, forwarded_media. cbn [text caption].
  change (truthy None) with (@None str). cbv iota.
  rewrite Htruthy, Hshape.
  rewrite search_profile_link_skip.
  - rewrite (search_profile_link_at_start rt Hascii) by done.
    by rewrite (py_int_str_of_int rt Hascii).
  - apply link_has_no_line_feed.
  - apply occurs_separator; [done|apply link_has_no_line_feed|done|].
    apply occurs_separator; [done|apply link_has_no_line_feed|done|].
    apply occurs_separator; [done|apply link_has_no_space|by vm_compute|done].
Qed.

Lemma extract_user_id_reads_forwarded_media_witness :
  extract_user_id ascii_runtime
    (forwarded_media (mkMessage 7012 (py "Ann") None (Some (py "photo")) None))
  = inr 7012.
Proof.
  apply (extract_user_id_reads_forwarded_media ascii_runtime
           (mkMessage 7012 (py "Ann") None (Some (py "photo")) None)).
  - exact ascii_runtime_reads_ascii.
  - simpl. lia.
  - vm_compute. reflexivity.
  - vm_compute. reflexivity.
Defined.

(** X6: [extract_user_id] takes the first profile link it meets.  When the
    sender's full name starts with a link to another id, the text sent to
    the staff group reads as coming from that id, and so does the caption
    of a media copy when the sender's caption starts with such a link. *)
Theorem extract_user_id_takes_first_link
    (rt : runtime) (message : Message) (body : str) (other : Z) (tail : str) :
  runtime_reads_ascii rt ->
  0 <= other ->
  stops_digits rt tail ->
  (from_user_full_name message = py "tg://user?id=" ++ str_of_int other ++ tail ->
   extract_user_id rt (forwarded_text message body) = inr other) /\
  (caption message = Some (py "tg://user?id=" ++ str_of_int other ++ tail) ->
   extract_user_id rt (forwarded_media message) = inr other).
Proof.
  intros Hascii Hother Htail.
  assert (Hp : py "tg://user?id=" <> []) by (vm_compute; discriminate).
  split.
  - intros Hname.
    assert (Hshape :
      group_text message body =
        py "Имя:" ++ 32 ::
          (py "tg://user?id=" ++ str_of_int other ++
           (tail ++ 10 :: (py "Профиль: tg://user?id=" ++
                           str_of_int (from_user_id message) ++ 10 :: 10 :: body)))).
    { unfold group_text, nl. rewrite Hname.
      replace (py "Имя: ") with (py "Имя:" ++ [32]) by (vm_compute; reflexivity).
      rewrite <- !app_assoc. simpl. reflexivity. }
    assert (Htruthy : truthy (Some (group_text message body)) =
                      Some (group_text message body)).
    { rewrite Hshape. destruct (py "Имя:") eqn:E; [vm_compute in E; discriminate|done]. }
    unfold extract_user_id, forwarded_text. cbn [text caption].
    rewrite Htruthy, Hshape.
    rewrite search_profile_link_skip;
      [|apply link_has_no_space|by vm_compute].
    rewrite (search_profile_link_at_start rt Hascii)
      by (try done; by apply stops_digits_app).
    by rewrite (py_int_str_of_int rt Hascii).
  - intros Hcap.
    assert (Hne : py "tg://user?id=" ++ str_of_int other ++ tail <> []).
    { destruct (py "tg://user?id="); done. }
    assert (Hshape :
      group_caption message =
        py "tg://user?id=" ++ str_of_int other ++
          (tail ++ 10 :: (10 :: py "Имя: " ++ from_user_full_name message ++ 10 ::
                          py "tg://user?id=" ++ str_of_int (from_user_id message)))).
    { unfold group_caption, nl. rewrite Hcap.
      destruct (py "tg://user?id=" ++ str_of_int other ++ tail) eqn:E; [done|].
      cbn [truthy default]. unfold id. rewrite <- E, <- !app_assoc. reflexivity. }
    assert (Htruthy : truthy (Some (group_caption message)) =
                      Some (group_caption message)).
    { rewrite Hshape. destruct (py "tg://user?id="); done. }
    unfold extract_user_id, forwarded_media. cbn [text caption].
  change (truthy None) with (@None str). cbv iota.
    rewrite Htruthy, Hshape.
    rewrite (search_profile_link_at_start rt Hascii)
      by (try done; by apply stops_digits_app).
    by rewrite (py_int_str_of_int rt Hascii).
Qed.

Lemma extract_user_id_takes_first_link_witness :
  extract_user_id ascii_runtime
    (forwarded_text (mkMessage 7012 (py "tg://user?id=5 Ann") (Some (py "hi")) None None)
       (py "hi")) = inr 5 /\
  extract_user_id ascii_runtime
    (forwarded_media (mkMessage 7012 (py "Ann") None (Some (py "tg://user?id=5 Ann")) None))
    = inr 5.
Proof.
  assert (Hstop : stops_digits ascii_runtime (py " Ann")) by (vm_compute; reflexivity).
  assert (H5 : 0 <= 5) by lia.
  pose proof (extract_user_id_takes_first_link ascii_runtime
                (mkMessage 7012 (py "tg://user?id=5 Ann") (Some (py "hi")) None None)
                (py "hi") 5 (py " Ann") ascii_runtime_reads_ascii H5 Hstop) as [Hname _].
  pose proof (extract_user_id_takes_first_link ascii_runtime
                (mkMessage 7012 (py "Ann") None (Some (py "tg://user?id=5 Ann")) None)
                [] 5 (py " Ann") ascii_runtime_reads_ascii H5 Hstop) as [_ Hcap].
  split.
  - apply Hname. vm_compute. reflexivity.
  - apply Hcap. vm_compute. reflexivity.
Defined.

(** ** The gate in front of a user's private messages *)

Section GateFacts.

Variable e : env.

Lemma restricted_banned message w reason :
  banned_users w !! from_user_id message = Some reason ->
  restricted e message w =
    (match transport e (length (trace w)) with
     | None => inr true
     | Some x => inl x
     end,
     mkWorld (muted_users w) (banned_users w)
       (trace w ++ [EvReply (banned_text reason)])).
Proof.
  intros Hb. unfold restricted, is_user_banned. munfold. rewrite Hb. simpl.
  rewrite Hb. simpl. answers; done.
Qed.

Lemma restricted_muted message w unmute_time reason :
  banned_users w !! from_user_id message = None ->
  muted_users w !! from_user_id message = Some (unmute_time, reason) ->
  clock e (length (trace w)) < unmute_time ->
  restricted e message w =
    (match transport e (S (S (length (trace w)))) with
     | None => inr true
     | Some x => inl x
     end,
     mkWorld (muted_users w) (banned_users w)
       (trace w ++
          [EvNow (clock e (length (trace w)));
           EvNow (clock e (S (length (trace w))));
           EvReply (muted_text reason
                      (time_str unmute_time (clock e (S (length (trace w))))))])).
Proof.
  intros Hb Hm Hlt. unfold restricted.
  unfold mbind at 1, M_bind. rewrite is_user_banned_run, Hb. simpl.
  unfold mbind at 1, M_bind. rewrite is_user_muted_run, Hm. simpl.
  apply Z.ltb_lt in Hlt. rewrite Hlt. munfold. rewrite Hm. simpl.
  rewrite !length_app, !Nat.add_1_r. simpl.
  answers; rewrite <- ?app_assoc; done.
Qed.

End GateFacts.

(** X7: a banned sender gets the ban text with the reason as the only
    call of the handler, for a text message, a media message and [/start]
    alike: nothing goes to the staff group, no clock is read and the
    registries stay as they are. *)
Theorem banned_sender_gets_reason_only
    (e : env) (message : Message) (w : world) (reason : str) :
  banned_users w !! from_user_id message = Some reason ->
  Forall (fun handler =>
            (handler message w).2 =
              mkWorld (muted_users w) (banned_users w)
                (trace w ++ [EvReply (banned_text reason)]))
         (private_handlers e).
Proof.
  intros Hb. unfold private_handlers.
  repeat constructor;
    unfold send_message_to_group, supported_media, command_start;
    unfold mbind, M_bind; rewrite (restricted_banned e message w reason Hb);
    by destruct (transport e (length (trace w))).
Qed.

Lemma banned_sender_gets_reason_only_witness :
  Forall (fun handler =>
            (handler (user_message 9 (Some (py "hello")) None) sample_world).2 =
              mkWorld (muted_users sample_world) (banned_users sample_world)
                [EvReply (banned_text (py "abuse"))])
         (private_handlers (delivering 200)).
Proof.
  apply (banned_sender_gets_reason_only (delivering 200)
           (user_message 9 (Some (py "hello")) None) sample_world (py "abuse")).
  vm_compute. reflexivity.
Defined.

(** X8: a sender whose mute is still running gets the mute text with the
    reason and the remaining time, computed from a second reading of the
    clock; nothing goes to the staff group and the record stays, for a
    text message, a media message and [/start] alike. *)
Theorem muted_sender_gets_remaining_time
    (e : env) (message : Message) (w : world) (unmute_time : Z) (reason : str) :
  banned_users w !! from_user_id message = None ->
  muted_users w !! from_user_id message = Some (unmute_time, reason) ->
  clock e (length (trace w)) < unmute_time ->
  Forall (fun handler =>
            (handler message w).2 =
              mkWorld (muted_users w) (banned_users w)
                (trace w ++
                   [EvNow (clock e (length (trace w)));
                    EvNow (clock e (S (length (trace w))));
                    EvReply (muted_text reason
                               (time_str unmute_time
                                  (clock e (S (length (trace w))))))]))
         (private_handlers e).
Proof.
  intros Hb Hm Hlt. unfold private_handlers.
  repeat constructor;
    unfold send_message_to_group, supported_media, command_start;
    unfold mbind, M_bind;
    rewrite (restricted_muted e message w unmute_time reason Hb Hm Hlt);
    by destruct (transport e (S (S (length (trace w))))).
Qed.

Lemma muted_sender_gets_remaining_time_witness :
  Forall (fun handler =>
            trace (handler (user_message 8 (Some (py "hello")) None) sample_world).2 =
              [EvNow 200; EvNow 200;
               EvReply (muted_text (py "flood") (py "0мин"))])
         (private_handlers (delivering 200)).
Proof.
  pose proof (muted_sender_gets_remaining_time (delivering 200)
                (user_message 8 (Some (py "hello")) None) sample_world 300 (py "flood")
                ltac:(vm_compute; reflexivity) ltac:(vm_compute; reflexivity)
                ltac:(vm_compute; reflexivity)) as H.
  eapply Forall_impl; [exact H|].
  intros handler ->. vm_compute. reflexivity.
Defined.

Lemma restricted_clear (e : env) message w :
  banned_users w !! from_user_id message = None ->
  muted_users w !! from_user_id message = None ->
  restricted e message w = (inr false, w).
Proof.
  intros Hb Hm. unfold restricted.
  unfold mbind at 1, M_bind. rewrite is_user_banned_run, Hb. simpl.
  unfold mbind at 1, M_bind. by rewrite is_user_muted_run, Hm.
Qed.

(** X9: when the platform refuses the message for the staff group, a media
    message is answered with the error text, while for a text message the
    exception leaves the handler and the sender is told nothing. *)
Theorem refused_forward_is_reported_for_media_only
    (e : env) (message : Message) (w : world) (msg : str) :
  banned_users w !! from_user_id message = None ->
  muted_users w !! from_user_id message = None ->
  transport e (length (trace w)) = Some (TelegramAPIError msg) ->
  (forall body,
      text message = Some body ->
      Z.of_nat (length body) <= 4000 ->
      send_message_to_group e message w =
        (inl (TelegramAPIError msg),
         mkWorld (muted_users w) (banned_users w)
           (trace w ++ [EvSendMessage ToGroup (group_text message body)]))) /\
  (Z.of_nat (length (default [] (truthy (caption message)))) <= 1000 ->
   supported_media e message w =
     (reply_outcome e (S (length (trace w))),
      mkWorld (muted_users w) (banned_users w)
        (trace w ++
           [EvCopyTo ToGroup (group_caption message);
            EvReply (py "❌ Ошибка при отправке медиа: " ++ msg)]))).
Proof.
  intros Hb Hm Ht. split.
  - intros body Hbody Hlen. unfold send_message_to_group.
    unfold mbind, M_bind. rewrite restricted_clear, Hbody by done.
    apply Z.ltb_ge in Hlen. rewrite Hlen. munfold. by rewrite Ht.
  - intros Hlen. unfold supported_media.
    unfold mbind, M_bind. rewrite restricted_clear by done.
    assert (Hcap : match truthy (caption message) with
                   | Some c => 1000 <? Z.of_nat (length c)
                   | None => false
                   end = false).
    { apply Z.ltb_ge in Hlen. by destruct (truthy (caption message)). }
    cbv zeta. rewrite Hcap. unfold reply_outcome. munfold. rewrite Ht. simpl.
    rewrite length_app, Nat.add_1_r. simpl.
    answers; by rewrite <- app_assoc.
Qed.

Lemma refused_forward_is_reported_for_media_only_witness :
  let e := refusing_at 0 200 (py "chat not found") in
  (send_message_to_group e (user_message 5 (Some (py "help")) None) sample_world).1 =
    inl (TelegramAPIError (py "chat not found")) /\
  supported_media e (user_message 5 None (Some (py "photo"))) sample_world =
    (inr tt,
     mkWorld (muted_users sample_world) (banned_users sample_world)
       [EvCopyTo ToGroup (group_caption (user_message 5 None (Some (py "photo"))));
        EvReply (py "❌ Ошибка при отправке медиа: " ++ py "chat not found")]).
Proof.
  intros e.
  pose proof (refused_forward_is_reported_for_media_only e
                (user_message 5 (Some (py "help")) None) sample_world
                (py "chat not found") ltac:(vm_compute; reflexivity)
                ltac:(vm_compute; reflexivity) eq_refl) as [Htext _].
  pose proof (refused_forward_is_reported_for_media_only e
                (user_message 5 None (Some (py "photo"))) sample_world
                (py "chat not found") ltac:(vm_compute; reflexivity)
                ltac:(vm_compute; reflexivity) eq_refl) as [_ Hmedia].
  split.
  - rewrite (Htext (py "help") eq_refl ltac:(vm_compute; discriminate)). reflexivity.
  - rewrite (Hmedia ltac:(vm_compute; discriminate)). reflexivity.
Defined.

(** X10: a sender who is neither banned nor muted gets the greeting from
    [/start], and [/start] sends nothing to the staff group. *)
Theorem start_greets_unrestricted_sender (e : env) (message : Message) (w : world) :
  banned_users w !! from_user_id message = None ->
  (forall unmute_time reason,
      muted_users w !! from_user_id message = Some (unmute_time, reason) ->
      unmute_time <= clock e (length (trace w))) ->
  let sent := new_events w (command_start e message w).2 in
  last sent = Some (EvReply greeting) /\
  List.filter is_forward sent = [].
Proof.
  intros Hb Hm sent. subst sent.
  destruct (restricted_passes e message w Hb Hm) as (Hr & Hf & checks & Htr).
  unfold new_events in Hf. rewrite Htr, drop_app_length in Hf.
  unfold command_start. unfold mbind, M_bind. rewrite Hr. unfold reply.
  rewrite (new_events_call e _ w _ checks Htr).
  by rewrite last_snoc, List.filter_app, Hf.
Qed.

Lemma start_greets_unrestricted_sender_witness :
  let sent := new_events sample_world
                (command_start (delivering 200) (user_message 7 (Some (py "/start")) None)
                   sample_world).2 in
  last sent = Some (EvReply greeting) /\ List.filter is_forward sent = [].
Proof.
  apply (start_greets_unrestricted_sender (delivering 200)
           (user_message 7 (Some (py "/start")) None) sample_world).
  - vm_compute. reflexivity.
  - intros unmute_time reason H. vm_compute in H.
    injection H as <- _. vm_compute. discriminate.
Defined.

(** The duration a mute gets, for any duration word. *)
Lemma parse_duration_at_most_a_day_helper (rt : runtime) (s : str) :
  runtime_wf rt ->
  exists used shown_as,
    mute_duration rt s = inr (used, shown_as) /\ 1 <= used <= 1440.
Proof.
  intros Hwf.
  destruct (parse_duration_returns rt s Hwf) as (m & d & Hp & Hle).
  destruct (mute_duration_of_parse rt s m d Hp Hle) as (used & shown_as & Hm & Hr & _).
  by exists used, shown_as.
Qed.

(** ** The admin commands *)

Section CommandFacts.

Variable rt : runtime.
Variable e : env.

Lemma lstrip_starts sp (s : str) c r : lstrip sp s = c :: r -> sp c = false.
Proof.
  induction s as [|x s IH]; simpl; [done|].
  destruct (sp x) eqn:Hx; [done|]. by intros [= <- _].
Qed.

Lemma lstrip_keeps_last sp (a : str) c :
  sp c = false -> exists l, lstrip sp (a ++ [c]) = l ++ [c].
Proof.
  intros Hc. induction a as [|x a IH]; simpl.
  - rewrite Hc. by exists [].
  - destruct (sp x); [done|]. by exists (x :: a).
Qed.

(** Stripping a text that starts with something other than white space
    leaves its first character in place. *)
Lemma strip_with_starts sp (c : Z) (r : str) :
  sp c = false -> exists r', strip_with sp (c :: r) = c :: r'.
Proof.
  intros Hc. unfold strip_with. simpl rev.
  destruct (lstrip_keeps_last sp (rev r) c Hc) as [l ->].
  rewrite rev_app_distr. simpl. rewrite Hc. by eexists.
Qed.

(** [split(maxsplit=1)] gives at most two parts, and the second one starts
    with something other than white space. *)
Lemma split1_shape (s : str) :
  split1 rt s = [] \/
  (exists word, split1 rt s = [word]) \/
  exists word c r, split1 rt s = [word; c :: r] /\ isspace rt c = false.
Proof.
  unfold split1.
  destruct (lstrip (fun c => isspace rt c) s) as [|x s1]; [by left|].
  destruct (span_word rt (x :: s1)) as [word rest].
  destruct (lstrip (fun c => isspace rt c) rest) as [|c r] eqn:Hr.
  - right. left. by eexists.
  - right. right. exists word, c, r. split; [done|].
    by apply (lstrip_starts _ _ _ _ Hr).
Qed.

Lemma split1_nonempty c (r : str) :
  isspace rt c = false -> split1 rt (c :: r) <> [].
Proof.
  intros Hc. unfold split1. simpl. rewrite Hc.
  destruct (span_word rt r) as [w rest]. simpl. rewrite ?Hc.
  by destruct (lstrip (fun c0 => isspace rt c0) rest).
Qed.

(** The [/mute] branch always finds its duration word: [args[0]] cannot
    raise on the parts the handler splits the command line into. *)
Lemma mute_args_of_command_line (body : str) :
  exists duration_str reason,
    mute_args rt (split1 rt (strip rt body)) = inr (duration_str, reason).
Proof.
  destruct (split1_shape (strip rt body))
    as [-> | [[word ->] | (word & c & r & -> & Hc)]]; simpl; [by eexists _, _..|].
  destruct (strip_with_starts (fun c => isspace rt c) c r Hc) as [r' Hs].
  unfold strip. rewrite Hs.
  pose proof (split1_nonempty c r' Hc) as Hne.
  destruct (split1 rt (c :: r')) as [|d [|reason more]]; [done|by eexists _, _..].
Qed.

(** The registries after a mute that gets as far as its duration. *)
Lemma command_mute_commits user_id command_parts w
    duration_str reason total_minutes time_display :
  banned_users w !! user_id = None ->
  mute_args rt command_parts = inr (duration_str, reason) ->
  mute_duration rt duration_str = inr (total_minutes, time_display) ->
  let w' := (command_mute rt e user_id command_parts w).2 in
  muted_users w' =
    <[user_id := (clock e (length (trace w)) + total_minutes * 60000000, reason)]>
      (muted_users w) /\
  banned_users w' = banned_users w.
Proof.
  intros Hb Ha Hd. unfold command_mute. munfold.
  rewrite Hb, Ha. simpl. rewrite Hd. simpl.
  answers; done.
Qed.

Lemma command_mute_refused user_id command_parts w reason :
  banned_users w !! user_id = Some reason ->
  (command_mute rt e user_id command_parts w).2 =
    mkWorld (muted_users w) (banned_users w)
      (trace w ++ EvReply (py "❌ Пользователь забанен. Сначала разбаньте его.") ::
         match transport e (length (trace w)) with
         | Some (TelegramAPIError msg) => [EvReply (py "❌ Ошибка при муте: " ++ msg)]
         | _ => []
         end).
Proof.
  intros Hb. unfold command_mute. munfold. rewrite Hb. simpl.
  destruct (transport e (length (trace w))) as [[]|]; simpl; try done.
  answers; by rewrite <- app_assoc.
Qed.

Lemma command_unban_absent user_id w :
  banned_users w !! user_id = None ->
  (command_unban e user_id w).2 =
    mkWorld (muted_users w) (banned_users w)
      (trace w ++ EvReply (py "❌ Пользователь не забанен.") ::
         match transport e (length (trace w)) with
         | Some (TelegramAPIError msg) =>
             [EvReply (py "❌ Ошибка при разблокировке: " ++ msg)]
         | _ => []
         end).
Proof.
  intros Hb. unfold command_unban. munfold. rewrite Hb. simpl.
  destruct (transport e (length (trace w))) as [[]|]; simpl; try done.
  answers; by rewrite <- app_assoc.
Qed.

End CommandFacts.

(** X11: when the message an admin command answers holds no profile link,
    the command is not looked at: the only call is the reply that carries
    the error, and the registries stay as they are. *)
Theorem admin_command_without_link_changes_nothing
    (rt : runtime) (e : env) (message replied : Message) (w : world) (err : str) :
  reply_to_message message = Some replied ->
  extract_user_id rt replied = inl (ValueError err) ->
  handle_admin_commands rt e message w =
    (reply_outcome e (length (trace w)),
     mkWorld (muted_users w) (banned_users w)
       (trace w ++ [EvReply (py "Ошибка: " ++ err)])).
Proof.
  intros Hr Hx. unfold handle_admin_commands, extract_replied_user_id, reply_outcome.
  rewrite Hr. munfold. rewrite Hx. simpl. answers; done.
Qed.

Lemma admin_command_without_link_changes_nothing_witness :
  let message := mkMessage 1 (py "Admin") (Some (py "/ban spam")) None
                   (Some (mkMessage 0 (py "Bot") (Some (py "id=7")) None None)) in
  handle_admin_commands ascii_runtime (delivering 200) message sample_world =
    (inr tt,
     mkWorld (muted_users sample_world) (banned_users sample_world)
       [EvReply (py "Ошибка: " ++ py "Не могу извлечь Id")]).
Proof.
  intros message.
  rewrite (admin_command_without_link_changes_nothing ascii_runtime (delivering 200)
             message (mkMessage 0 (py "Bot") (Some (py "id=7")) None None)
             sample_world (py "Не могу извлечь Id") eq_refl
             ltac:(vm_compute; reflexivity)).
  reflexivity.
Defined.

(** X12: [/mute] on a banned user is refused: the invoker is told to unban
    first, the target is sent nothing, and both registries stay as they
    are. *)
Theorem mute_of_banned_user_is_refused
    (rt : runtime) (e : env) (user_id : Z) (command_parts : list str)
    (w : world) (reason : str) :
  banned_users w !! user_id = Some reason ->
  let w' := (command_mute rt e user_id command_parts w).2 in
  head (new_events w w') =
    Some (EvReply (py "❌ Пользователь забанен. Сначала разбаньте его.")) /\
  List.filter is_notification (new_events w w') = [] /\
  muted_users w' = muted_users w /\
  banned_users w' = banned_users w.
Proof.
  intros Hb w'. subst w'. rewrite (command_mute_refused rt e _ _ _ reason Hb).
  unfold new_events. simpl. rewrite drop_app_length. simpl.
  repeat split; try done.
  by destruct (transport e (length (trace w))) as [[]|].
Qed.

Lemma mute_of_banned_user_is_refused_witness :
  let w' := (command_mute ascii_runtime (delivering 200) 9 [py "/mute"; py "1ч"]
               sample_world).2 in
  head (new_events sample_world w') =
    Some (EvReply (py "❌ Пользователь забанен. Сначала разбаньте его.")) /\
  List.filter is_notification (new_events sample_world w') = [] /\
  muted_users w' = muted_users sample_world /\
  banned_users w' = banned_users sample_world.
Proof.
  apply (mute_of_banned_user_is_refused ascii_runtime (delivering 200) 9
           [py "/mute"; py "1ч"] sample_world (py "abuse")).
  vm_compute. reflexivity.
Defined.

(** X13: [/mute] on a user who is not banned always mutes, whatever
    follows the command word and whatever becomes of the notification: the
    user's record is set to end between one minute and one day after the
    clock reading of the command, an earlier record of the user is
    replaced, and from then on [is_user_muted] answers true exactly while
    the clock is before that end. *)
Theorem mute_lasts_a_minute_to_a_day
    (rt : runtime) (e e' : env) (message replied : Message) (user_id : Z)
    (body word : str) (rest : list str) (w : world) :
  runtime_wf rt ->
  reply_to_message message = Some replied ->
  extract_user_id rt replied = inr user_id ->
  text message = Some body ->
  split1 rt (strip rt body) = word :: rest ->
  lower rt word = py "/mute" ->
  banned_users w !! user_id = None ->
  let w' := (handle_admin_commands rt e message w).2 in
  exists total_minutes reason,
    1 <= total_minutes <= 1440 /\
    muted_users w' =
      <[user_id := (clock e (length (trace w)) + total_minutes * 60000000, reason)]>
        (muted_users w) /\
    banned_users w' = banned_users w /\
    (is_user_muted e' user_id w').1 =
      inr (bool_decide (clock e' (length (trace w')) <
                        clock e (length (trace w)) + total_minutes * 60000000)).
Proof.
  intros Hwf Hr Hx Ht Hs Hl Hb w'. subst w'.
  rewrite (handle_admin_commands_dispatch e rt message replied user_id body word rest w)
    by done.
  rewrite Hl. rewrite <- Hs.
  destruct (decide (py "/mute" = py "/ban")) as [Heq|_];
    [vm_compute in Heq; discriminate|].
  destruct (decide (py "/mute" = py "/mute")) as [_|Hne]; [|done].
  destruct (mute_args_of_command_line rt body) as (duration_str & reason & Ha).
  destruct (parse_duration_at_most_a_day_helper rt duration_str Hwf)
    as (total & display & Hd & Hrange).
  destruct (command_mute_commits rt e user_id _ w _ _ _ _ Hb Ha Hd) as [Hm Hbn].
  exists total, reason. repeat split; try done; try lia.
  rewrite is_user_muted_run, Hm, lookup_insert_eq. simpl.
  destruct (_ <? _) eqn:Hlt; simpl.
  - apply Z.ltb_lt in Hlt. by rewrite bool_decide_eq_true_2.
  - apply Z.ltb_ge in Hlt. rewrite bool_decide_eq_false_2; [done|lia].
Qed.

Lemma mute_lasts_a_minute_to_a_day_witness :
  let w' := (handle_admin_commands ascii_runtime (delivering 200)
               (staff_message (py "/Mute -5 spam")) sample_world).2 in
  exists total_minutes reason,
    1 <= total_minutes <= 1440 /\
    muted_users w' =
      <[7 := (200 + total_minutes * 60000000, reason)]> (muted_users sample_world) /\
    banned_users w' = banned_users sample_world /\
    (is_user_muted (delivering 500) 7 w').1 =
      inr (bool_decide (500 < 200 + total_minutes * 60000000)).
Proof.
  apply (mute_lasts_a_minute_to_a_day ascii_runtime (delivering 200) (delivering 500)
           (staff_message (py "/Mute -5 spam"))
           (mkMessage 0 (py "Bot") (Some (py "Профиль: tg://user?id=7")) None None)
           7 (py "/Mute -5 spam") (py "/Mute") [py "-5 spam"] sample_world).
  - exact ascii_runtime_wf.
  - reflexivity.
  - vm_compute. reflexivity.
  - reflexivity.
  - vm_compute. reflexivity.
  - vm_compute. reflexivity.
  - vm_compute. reflexivity.
Defined.

(** X14: for a user with no record in [banned_users] the unban command
    answers that the user is not banned, sends the user nothing, and leaves
    both registries as they were. *)
Theorem unban_without_record_changes_nothing (e : env) (user_id : Z) (w : world) :
  banned_users w !! user_id = None ->
  let w' := (command_unban e user_id w).2 in
  head (new_events w w') = Some (EvReply (py "❌ Пользователь не забанен.")) /\
  List.filter is_notification (new_events w w') = [] /\
  muted_users w' = muted_users w /\
  banned_users w' = banned_users w.
Proof.
  intros Hb w'. subst w'. rewrite (command_unban_absent e _ _ Hb).
  unfold new_events. simpl. rewrite drop_app_length. simpl.
  repeat split; try done.
  by destruct (transport e (length (trace w))) as [[]|].
Qed.

Lemma unban_without_record_changes_nothing_witness :
  let w' := (command_unban (delivering 200) 7 sample_world).2 in
  head (new_events sample_world w') = Some (EvReply (py "❌ Пользователь не забанен.")) /\
  List.filter is_notification (new_events sample_world w') = [] /\
  muted_users w' = muted_users sample_world /\
  banned_users w' = banned_users sample_world.
Proof.
  apply (unban_without_record_changes_nothing (delivering 200) 7 sample_world).
  vm_compute. reflexivity.
Defined.

(** X15: a ban followed by an unban of the same user leaves the user in
    neither registry: the ban record is gone, and a mute that the ban
    removed does not come back.  Nobody else's record changes. *)
Theorem ban_then_unban_forgets_the_mute
    (rt : runtime) (e1 e2 : env) (user_id : Z) (command_parts : list str) (w : world) :
  let banned := (command_ban rt e1 user_id command_parts w).2 in
  let w' := (command_unban e2 user_id banned).2 in
  banned_users w' = delete user_id (banned_users w) /\
  muted_users w' = delete user_id (muted_users w).
Proof.
  intros banned w'. subst w' banned.
  destruct (command_unban_registry e2 user_id
              (command_ban rt e1 user_id command_parts w).2) as [-> ->].
  destruct (command_ban_registry e1 rt user_id command_parts w) as [-> ->].
  split; [by rewrite delete_insert_eq|done].
Qed.

Lemma registries_disjoint_sample : registries_disjoint sample_world.
Proof.
  intros user_id [record Hm]. unfold sample_world in *. simpl in *.
  destruct (decide (user_id = 9)) as [->|Hne].
  - vm_compute in Hm. discriminate.
  - rewrite lookup_insert_ne by done. apply lookup_empty.
Qed.

(** X16: no admin command puts a user into both registries: on a pair of
    registries that share no user, whatever the command and whatever the
    transport does, the registries afterwards share no user either. *)
Theorem admin_commands_keep_registries_apart
    (rt : runtime) (e : env) (message : Message) (w : world) :
  registries_disjoint w ->
  registries_disjoint (handle_admin_commands rt e message w).2.
Proof.
  apply handle_admin_commands_keeps_disjoint.
Qed.

Lemma admin_commands_keep_registries_apart_witness :
  registries_disjoint
    (handle_admin_commands ascii_runtime (delivering 200)
       (staff_message (py "/ban spam")) sample_world).2.
Proof.
  apply (admin_commands_keep_registries_apart ascii_runtime (delivering 200)
           (staff_message (py "/ban spam")) sample_world).
  exact registries_disjoint_sample.
Defined.

(** ** Who can change the registries *)

Section Framing.

Variable rt : runtime.
Variable e : env.

Ltac drops :=
  split; simpl; [done | first [done | apply delete_subseteq]].

Lemma restricted_only_drops message w :
  only_drops_mutes w (restricted e message w).2.
Proof.
  unfold restricted, is_user_banned, is_user_muted. munfold.
  destruct (banned_users w !! from_user_id message) eqn:Hb; simpl.
  { rewrite Hb. simpl. answers; drops. }
  destruct (muted_users w !! from_user_id message) as [[ut r]|] eqn:Hm; simpl;
    [|drops].
  rewrite Hm. simpl. destruct (_ <? ut); simpl; rewrite ?Hm; simpl.
  - rewrite ?Hm. simpl. answers; drops.
  - drops.
Qed.

Lemma send_message_to_group_only_drops message w :
  only_drops_mutes w (send_message_to_group e message w).2.
Proof.
  pose proof (restricted_only_drops message w) as Hr.
  unfold send_message_to_group. unfold mbind at 1, M_bind.
  destruct (restricted e message w) as [[x|[]] w1]; simpl in *; try done.
  destruct (text message); [|done].
  destruct (_ <? _); munfold; answers; done.
Qed.

Lemma supported_media_only_drops message w :
  only_drops_mutes w (supported_media e message w).2.
Proof.
  pose proof (restricted_only_drops message w) as Hr.
  unfold supported_media. unfold mbind at 1, M_bind.
  destruct (restricted e message w) as [[x|[]] w1]; simpl in *; try done.
  destruct (match truthy (caption message) with
            | Some c => 1000 <? Z.of_nat (length c)
            | None => false
            end); munfold; answers; done.
Qed.

Lemma command_start_only_drops message w :
  only_drops_mutes w (command_start e message w).2.
Proof.
  pose proof (restricted_only_drops message w) as Hr.
  unfold command_start. unfold mbind at 1, M_bind.
  destruct (restricted e message w) as [[x|[]] w1]; simpl in *; try done.
  munfold; answers; done.
Qed.

Lemma get_user_info_only_drops message w :
  only_drops_mutes w (get_user_info rt e message w).2.
Proof.
  unfold get_user_info, extract_replied_user_id, get_chat.
  destruct (reply_to_message message) as [replied|]; [|drops].
  munfold.
  destruct (extract_user_id rt replied) as [x|user_id]; simpl.
  { destruct x; simpl; answers; drops. }
  destruct (transport e (length (trace w))) as [[]|] eqn:Ht; simpl;
    try (answers; drops).
  destruct (banned_users w !! user_id) eqn:Hb; simpl.
  { rewrite Hb. simpl. answers; drops. }
  destruct (muted_users w !! user_id) as [[ut r]|] eqn:Hm; simpl;
    [|answers; drops].
  rewrite Hm. simpl. destruct (_ <? ut); simpl; rewrite ?Hm; simpl;
    answers; drops.
Qed.

Lemma send_message_answer_only_drops message w :
  only_drops_mutes w (send_message_answer rt e message w).2.
Proof.
  unfold send_message_answer, extract_replied_user_id, except_answer_errors.
  destruct (reply_to_message message) as [replied|]; [|drops].
  munfold.
  destruct (extract_user_id rt replied) as [x|user_id]; simpl.
  { destruct x; simpl; answers; drops. }
  answers; drops.
Qed.

Lemma sweep_cycle_only_drops w : only_drops_mutes w (sweep_cycle e w).2.
Proof.
  rewrite sweep_cycle_run. split; simpl; [done|]. apply map_filter_subseteq.
Qed.

End Framing.

(** X17: only the admin commands ban, unban or mute.  The handlers of a
    user's private messages, the info query, the relay of a staff answer
    and a pass of the sweeper leave [banned_users] as it is and add
    nothing to [muted_users]; at most they drop mute records. *)
Theorem only_admin_commands_restrict
    (rt : runtime) (e : env) (message : Message) (w : world) :
  Forall (fun handler => only_drops_mutes w (handler message w).2)
         (private_handlers e ++ [get_user_info rt e; send_message_answer rt e]) /\
  only_drops_mutes w (sweep_cycle e w).2.
Proof.
  split; [|apply sweep_cycle_only_drops].
  unfold private_handlers. simpl.
  constructor; [apply send_message_to_group_only_drops|].
  constructor; [apply supported_media_only_drops|].
  constructor; [apply command_start_only_drops|].
  constructor; [apply get_user_info_only_drops|].
  constructor; [apply send_message_answer_only_drops|].
  constructor.
Qed.

(** ** The info query *)

(** X18: when the platform cannot produce the profile, the info query
    answers with the error text of the platform and does nothing else: the
    registries are not read, so a mute record that has run out stays. *)
Theorem info_reports_failed_lookup
    (rt : runtime) (e : env) (message replied : Message) (user_id : Z)
    (w : world) (msg : str) :
  reply_to_message message = Some replied ->
  extract_user_id rt replied = inr user_id ->
  transport e (length (trace w)) = Some (TelegramAPIError msg) ->
  get_user_info rt e message w =
    (reply_outcome e (S (length (trace w))),
     mkWorld (muted_users w) (banned_users w)
       (trace w ++
          [EvGetChat user_id;
           EvReply (py "Невозможно найти пользователя с таким Id. Текст ошибки:" ++
                    nl ++ msg)])).
Proof.
  intros Hr Hx Ht. unfold get_user_info, extract_replied_user_id.
  rewrite Hr. unfold get_chat, reply_outcome. munfold.
  rewrite Hx. simpl. rewrite Ht. simpl.
  rewrite ?length_app, ?Nat.add_1_r; simpl.
  answers; rewrite <- ?app_assoc; done.
Qed.

Lemma info_reports_failed_lookup_witness :
  muted_users
    (get_user_info ascii_runtime (refusing_at 0 200 (py "chat not found"))
       (staff_message (py "/info")) sample_world).2 !! 7 = Some (100, py "spam").
Proof.
  rewrite (info_reports_failed_lookup ascii_runtime
             (refusing_at 0 200 (py "chat not found")) (staff_message (py "/info"))
             (mkMessage 0 (py "Bot") (Some (py "Профиль: tg://user?id=7")) None None)
             7 sample_world (py "chat not found") eq_refl
             ltac:(vm_compute; reflexivity) eq_refl).
  vm_compute. reflexivity.
Defined.

(** X19: what the info query shows for a restricted user.  For a banned
    user it is the ban reason, found without reading the clock or the mute
    registry; for a user whose mute is still running it is the end of the
    mute and the time left at a second reading of the clock, and the
    record stays. *)
Theorem info_shows_restriction
    (rt : runtime) (e : env) (message replied : Message) (user_id : Z) (w : world) :
  reply_to_message message = Some replied ->
  extract_user_id rt replied = inr user_id ->
  transport e (length (trace w)) = None ->
  let k := length (trace w) in
  let user := profile e k in
  (forall reason,
      banned_users w !! user_id = Some reason ->
      get_user_info rt e message w =
        (reply_outcome e (S k),
         mkWorld (muted_users w) (banned_users w)
           (trace w ++
              [EvGetChat user_id;
               EvReply (info_text user (shown_username user)
                          (py "Забанен: " ++ reason))]))) /\
  (forall unmute_time reason,
      banned_users w !! user_id = None ->
      muted_users w !! user_id = Some (unmute_time, reason) ->
      clock e (S k) < unmute_time ->
      get_user_info rt e message w =
        (reply_outcome e (S (S (S k))),
         mkWorld (muted_users w) (banned_users w)
           (trace w ++
              [EvGetChat user_id;
               EvNow (clock e (S k));
               EvNow (clock e (S (S k)));
               EvReply (info_text user (shown_username user)
                          (py "Замучен (до " ++ strftime rt unmute_time ++
                           py ", осталось " ++
                           time_str unmute_time (clock e (S (S k))) ++ py ")"))]))).
Proof.
  intros Hr Hx Ht k user. subst k user. split.
  - intros reason Hb. unfold get_user_info, extract_replied_user_id.
    rewrite Hr. unfold get_chat, reply_outcome. munfold.
    rewrite Hx. simpl. rewrite Ht. simpl. rewrite Hb. simpl. rewrite Hb. simpl.
    rewrite ?length_app, ?Nat.add_1_r; simpl.
    answers; rewrite <- ?app_assoc; done.
  - intros unmute_time reason Hb Hm Hlt. unfold get_user_info, extract_replied_user_id.
    rewrite Hr. unfold get_chat, reply_outcome. munfold.
    rewrite Hx. simpl. rewrite Ht. simpl. rewrite Hb, Hm. simpl. rewrite Hm. simpl.
    rewrite ?length_app, ?Nat.add_1_r; simpl.
    apply Z.ltb_lt in Hlt. rewrite Hlt. simpl.
    rewrite ?length_app, ?Nat.add_1_r; simpl.
    answers; rewrite <- ?app_assoc; done.
Qed.

Lemma info_shows_restriction_witness :
  let replied n := mkMessage 0 (py "Bot") (Some (py "tg://user?id=" ++ str_of_int n))
                     None None in
  let message n := mkMessage 1 (py "Admin") (Some (py "/info")) None (Some (replied n)) in
  last (trace (get_user_info ascii_runtime (delivering 200) (message 9) sample_world).2) =
    Some (EvReply (info_text nobody (py "отсутствует") (py "Забанен: " ++ py "abuse"))) /\
  last (trace (get_user_info ascii_runtime (delivering 200) (message 8) sample_world).2) =
    Some (EvReply (info_text nobody (py "отсутствует")
                     (py "Замучен (до " ++ py "300" ++ py ", осталось " ++
                      py "0мин" ++ py ")"))).
Proof.
  intros replied message.
  pose proof (info_shows_restriction ascii_runtime (delivering 200) (message 9)
                (replied 9) 9 sample_world eq_refl ltac:(vm_compute; reflexivity)
                eq_refl) as [Hbanned _].
  pose proof (info_shows_restriction ascii_runtime (delivering 200) (message 8)
                (replied 8) 8 sample_world eq_refl ltac:(vm_compute; reflexivity)
                eq_refl) as [_ Hmuted].
  split.
  - rewrite (Hbanned (py "abuse") ltac:(vm_compute; reflexivity)).
    vm_compute. reflexivity.
  - rewrite (Hmuted 300 (py "flood") ltac:(vm_compute; reflexivity)
               ltac:(vm_compute; reflexivity) ltac:(vm_compute; reflexivity)).
    vm_compute. reflexivity.
Defined.

(** ** The sweeper over several passes *)

Section SweeperMore.

Variable e : env.

Lemma filter_sleep_notifications (l : list Z) :
  List.filter is_sleep (notify_expired <$> l) = [].
Proof. induction l; simpl; done. Qed.

Lemma filter_notification_notifications (l : list Z) :
  List.filter is_notification (notify_expired <$> l) = notify_expired <$> l.
Proof. induction l as [|x l IH]; simpl; [done|]. f_equal. exact IH. Qed.

Lemma sweep_cycle_events w :
  let t := clock e (length (trace w)) in
  new_events w (sweep_cycle e w).2 =
    EvNow t :: (notify_expired <$> expired_at t (muted_users w)) ++ [EvSleep 60].
Proof.
  intros t. rewrite sweep_cycle_run. unfold new_events. simpl.
  by rewrite drop_app_length.
Qed.

Lemma expired_at_nil t (m : gmap Z (Z * str)) :
  (forall user_id unmute_time reason,
      m !! user_id = Some (unmute_time, reason) -> t < unmute_time) ->
  expired_at t m = [].
Proof.
  intros Hlive. destruct (expired_at t m) as [|user_id l] eqn:E; [done|].
  assert (Hin : user_id ∈ expired_at t m) by (rewrite E; by left).
  apply elem_of_expired_at in Hin as (ut & r & Hm & Hle).
  specialize (Hlive _ _ _ Hm). lia.
Qed.

End SweeperMore.

(** X20: no failure of the transport stops the sweeper or makes it skip
    its sleep: any number of passes of the loop ends normally, with one
    60-second sleep per pass. *)
Theorem sweeper_survives_every_failure (e : env) (n : nat) (w : world) :
  (check_mute_expirations e n w).1 = inr tt /\
  List.filter is_sleep (new_events w (check_mute_expirations e n w).2) =
    replicate n (EvSleep 60).
Proof.
  revert w. induction n as [|n IH]; intros w.
  - split; [done|]. unfold new_events. simpl. by rewrite drop_all.
  - change (check_mute_expirations e (S n)) with
      (sweep_cycle e ;; check_mute_expirations e n).
    unfold mbind, M_bind.
    pose proof (sweep_cycle_events e w) as Hev. simpl in Hev.
    rewrite sweep_cycle_run in *. simpl in Hev.
    match goal with |- context [check_mute_expirations e n ?w1] =>
      destruct (IH w1) as [Hres Hsleeps];
      destruct (check_mute_expirations_run e n w1) as (later & _ & Ht);
      set (w' := check_mute_expirations e n w1) in *
    end.
    split; [done|].
    unfold new_events in *. rewrite Ht in *. simpl in *.
    rewrite drop_app_length in Hsleeps.
    rewrite <- app_assoc, drop_app_length. simpl.
    rewrite <- app_assoc. simpl.
    rewrite List.filter_app, filter_sleep_notifications. simpl.
    by rewrite Hsleeps.
Qed.

(** X21: a pass of the sweeper tries to notify every user whose mute has
    run out, each of them once and nobody else, whether or not earlier
    notifications of the pass were delivered. *)
Theorem sweep_notifies_each_expired_user_once (e : env) (w : world) :
  let t := clock e (length (trace w)) in
  exists notified : list Z,
    List.filter is_notification (new_events w (sweep_cycle e w).2) =
      notify_expired <$> notified /\
    NoDup notified /\
    forall user_id,
      user_id ∈ notified <->
      exists unmute_time reason,
        muted_users w !! user_id = Some (unmute_time, reason) /\ unmute_time <= t.
Proof.
  intros t. exists (expired_at t (muted_users w)).
  split; [|split].
  - rewrite sweep_cycle_events. fold t. simpl.
    rewrite List.filter_app, filter_notification_notifications. simpl.
    by rewrite app_nil_r.
  - apply NoDup_expired_at.
  - intros user_id. apply elem_of_expired_at.
Qed.

(** X22: a pass that follows another without a later clock reading finds
    nothing to do: it reads the clock and sleeps, notifies nobody and
    leaves the registries as they are. *)
Theorem sweep_again_is_idle (e e' : env) (w : world) :
  let swept := (sweep_cycle e w).2 in
  clock e' (length (trace swept)) <= clock e (length (trace w)) ->
  sweep_cycle e' swept =
    (inr tt,
     mkWorld (muted_users swept) (banned_users swept)
       (trace swept ++ [EvNow (clock e' (length (trace swept))); EvSleep 60])).
Proof.
  intros swept Hclock.
  assert (Hlive : forall user_id unmute_time reason,
             muted_users swept !! user_id = Some (unmute_time, reason) ->
             clock e' (length (trace swept)) < unmute_time).
  { intros user_id ut r Hm. subst swept. rewrite sweep_cycle_run in Hm.
    simpl in Hm. apply map_lookup_filter_Some in Hm as [_ Hlt]. simpl in Hlt.
    rewrite sweep_cycle_run in Hclock. simpl in Hclock.
    rewrite sweep_cycle_run. simpl. lia. }
  rewrite (sweep_cycle_run e' swept). simpl.
  rewrite (expired_at_nil _ _ Hlive). simpl.
  f_equal. f_equal. apply map_filter_id.
  intros user_id [ut r] Hm. simpl. by eapply Hlive.
Qed.

Lemma sweep_again_is_idle_witness :
  let swept := (sweep_cycle (delivering 200) sample_world).2 in
  (sweep_cycle (delivering 150) swept).2 =
    mkWorld (muted_users swept) (banned_users swept)
      (trace swept ++ [EvNow 150; EvSleep 60]).
Proof.
  intros swept. subst swept.
  rewrite (sweep_again_is_idle (delivering 200) (delivering 150) sample_world).
  - reflexivity.
  - simpl. lia.
Defined.

(** ** The relay of a staff answer *)

(** X23: a staff answer to a message that holds a profile link is copied
    to the user the link names, without a look at the registries, so a
    muted or banned user gets it too; when the platform refuses the copy,
    the staff member is told why.  The registries stay as they are. *)
Theorem staff_answer_reaches_any_user
    (rt : runtime) (e : env) (message replied : Message) (user_id : Z) (w : world) :
  reply_to_message message = Some replied ->
  extract_user_id rt replied = inr user_id ->
  let w' := (send_message_answer rt e message w).2 in
  head (new_events w w') = Some (EvCopyTo (ToUser user_id) []) /\
  muted_users w' = muted_users w /\
  banned_users w' = banned_users w /\
  (forall msg,
      transport e (length (trace w)) = Some (TelegramAPIError msg) ->
      new_events w w' =
        [EvCopyTo (ToUser user_id) [];
         EvReply (py "Ошибка при отправке сообщения пользователю: " ++ msg)]).
Proof.
  intros Hr Hx w'. subst w'.
  unfold send_message_answer, extract_replied_user_id, except_answer_errors, new_events.
  rewrite Hr. munfold. rewrite Hx. simpl.
  destruct (transport e (length (trace w))) as [[]|] eqn:Ht; simpl;
    rewrite ?length_app, ?Nat.add_1_r; simpl;
    answers; rewrite <- ?app_assoc, ?drop_app_length; simpl;
    repeat split; try done; intros ? [= <-]; done.
Qed.

Lemma staff_answer_reaches_any_user_witness :
  let message := mkMessage 1 (py "Admin") (Some (py "we are on it")) None
                   (Some (mkMessage 0 (py "Bot") (Some (py "tg://user?id=9")) None None)) in
  let w' := (send_message_answer ascii_runtime (delivering 200) message sample_world).2 in
  banned_users sample_world !! 9 = Some (py "abuse") /\
  head (new_events sample_world w') = Some (EvCopyTo (ToUser 9) []).
Proof.
  intros message w'. split; [vm_compute; reflexivity|].
  apply (staff_answer_reaches_any_user ascii_runtime (delivering 200) message
           (mkMessage 0 (py "Bot") (Some (py "tg://user?id=9")) None None)
           9 sample_world eq_refl).
  vm_compute. reflexivity.
Defined.

(** X24: a staff answer to a message without a profile link is copied to
    nobody: the only call is the reply that tells the staff member that
    the id could not be read. *)
Theorem staff_answer_without_link_is_reported
    (rt : runtime) (e : env) (message replied : Message) (w : world) (err : str) :
  reply_to_message message = Some replied ->
  extract_user_id rt replied = inl (ValueError err) ->
  send_message_answer rt e message w =
    (reply_outcome e (length (trace w)),
     mkWorld (muted_users w) (banned_users w)
       (trace w ++
          [EvReply (py "Не могу извлечь Id. Возможно он некорректный. Текст ошибки:" ++
                    nl ++ err)])).
Proof.
  intros Hr Hx.
  unfold send_message_answer, extract_replied_user_id, except_answer_errors,
    reply_outcome.
  rewrite Hr. munfold. rewrite Hx. simpl. answers; done.
Qed.

Lemma staff_answer_without_link_is_reported_witness :
  let message := mkMessage 1 (py "Admin") (Some (py "hello")) None
                   (Some (mkMessage 0 (py "Bot") None None None)) in
  trace (send_message_answer ascii_runtime (delivering 200) message sample_world).2 =
    [EvReply (py "Не могу извлечь Id. Возможно он некорректный. Текст ошибки:" ++
              nl ++ py "Не могу извлечь Id")].
Proof.
  intros message.
  rewrite (staff_answer_without_link_is_reported ascii_runtime (delivering 200)
             message (mkMessage 0 (py "Bot") None None None) sample_world
             (py "Не могу извлечь Id") eq_refl ltac:(vm_compute; reflexivity)).
  reflexivity.
Defined.

(** ** More on the commands and on the texts shown *)

(** X25: the remaining time shown to a muted user is the time left in
    whole seconds, rounded down to whole minutes: the minutes shown are
    always within 0..59, and the hours are shown only when there is at
    least one, so no negative number is ever shown. *)
Theorem time_str_shows_whole_minutes (unmute_time now : Z) :
  let seconds := Z.quot (unmute_time - now) 1000000 in
  exists hours minutes,
    0 <= minutes < 60 /\
    hours * 3600 + minutes * 60 <= seconds < hours * 3600 + minutes * 60 + 60 /\
    time_str unmute_time now =
      if 0 <? hours
      then str_of_int hours ++ py "ч " ++ str_of_int minutes ++ py "мин"
      else str_of_int minutes ++ py "мин".
Proof.
  intros seconds. exists (seconds / 3600), (seconds mod 3600 / 60).
  pose proof (Z.mod_pos_bound seconds 3600 ltac:(lia)) as Hr.
  pose proof (Z.div_mod seconds 3600 ltac:(lia)) as Hs.
  pose proof (Z.div_mod (seconds mod 3600) 60 ltac:(lia)) as Hm.
  pose proof (Z.mod_pos_bound (seconds mod 3600) 60 ltac:(lia)) as Hm'.
  assert (0 <= seconds mod 3600 / 60 < 60).
  { split; [apply Z.div_pos; lia|]. apply Z.div_lt_upper_bound; lia. }
  repeat split; try lia. 
Qed.

(** X26: a command word other than the four known ones changes nothing:
    the only call is the reply with the list of commands. *)
Theorem unknown_command_gets_help
    (rt : runtime) (e : env) (message replied : Message) (user_id : Z)
    (body word : str) (rest : list str) (w : world) :
  reply_to_message message = Some replied ->
  extract_user_id rt replied = inr user_id ->
  text message = Some body ->
  split1 rt (strip rt body) = word :: rest ->
  lower rt word ∉ [py "/ban"; py "/mute"; py "/unmute"; py "/unban"] ->
  handle_admin_commands rt e message w =
    (reply_outcome e (length (trace w)),
     mkWorld (muted_users w) (banned_users w) (trace w ++ [EvReply help_text])).
Proof.
  intros Hr Hx Ht Hs Hw.
  rewrite (handle_admin_commands_dispatch e rt message replied user_id body word rest w)
    by done.
  repeat case_decide;
    try (exfalso; apply Hw; rewrite !elem_of_cons; tauto).
  unfold reply_outcome. munfold. answers; done.
Qed.

Lemma unknown_command_gets_help_witness :
  handle_admin_commands ascii_runtime (delivering 200)
    (staff_message (py "/kick now")) sample_world =
    (inr tt,
     mkWorld (muted_users sample_world) (banned_users sample_world)
       [EvReply help_text]).
Proof.
  rewrite (unknown_command_gets_help ascii_runtime (delivering 200)
             (staff_message (py "/kick now"))
             (mkMessage 0 (py "Bot") (Some (py "Профиль: tg://user?id=7")) None None)
             7 (py "/kick now") (py "/kick") [py "now"] sample_world).
  - reflexivity.
  - reflexivity.
  - vm_compute. reflexivity.
  - reflexivity.
  - vm_compute. reflexivity.
  - intros H. apply list_elem_of_In in H. vm_compute in H. intuition discriminate.
Defined.

(** X27: [/unban] of a banned user removes the ban record and nothing
    else, whatever becomes of the notification, so that [is_user_banned]
    is false right afterwards; when both calls are delivered, they are the
    notification to the user and then the confirmation to the invoker. *)
Theorem unban_lifts_the_ban (e : env) (user_id : Z) (w : world) :
  is_Some (banned_users w !! user_id) ->
  let w' := (command_unban e user_id w).2 in
  banned_users w' = delete user_id (banned_users w) /\
  muted_users w' = muted_users w /\
  (is_user_banned user_id w').1 = inr false /\
  (transport e (length (trace w)) = None ->
   transport e (S (length (trace w))) = None ->
   command_unban e user_id w =
     (inr tt,
      mkWorld (muted_users w) (delete user_id (banned_users w))
        (trace w ++
           [EvSendMessage (ToUser user_id) unban_notice;
            EvReply (py "✅ Пользователь разблокирован.")]))).
Proof.
  intros [reason Hb] w'. subst w'.
  destruct (command_unban_registry e user_id w) as [Hbn Hm].
  repeat split; [done|done| |].
  - by rewrite is_user_banned_run, Hbn, lookup_delete_eq.
  - intros H1 H2. unfold command_unban. munfold. rewrite Hb. simpl.
    rewrite Hb. simpl. rewrite H1. simpl.
    rewrite length_app, Nat.add_1_r. simpl. rewrite H2. simpl.
    by rewrite <- app_assoc.
Qed.

Lemma unban_lifts_the_ban_witness :
  let w' := (command_unban (delivering 200) 9 sample_world).2 in
  banned_users w' !! 9 = None /\
  (is_user_banned 9 w').1 = inr false.
Proof.
  intros w'.
  destruct (unban_lifts_the_ban (delivering 200) 9 sample_world
              ltac:(vm_compute; eexists; reflexivity)) as (Hb & _ & Hq & _).
  refine (conj _ Hq). fold w' in Hb. rewrite Hb. apply lookup_delete_eq.
Defined.
